(** * A moderation bot: stores, permission checks and command handlers

    Shallow embedding of [bot.py].  The two JSON documents on disk
    ([config.json], [warnings.json]) are modelled by what the standard
    library reports about them; requests issued to the chat platform are
    recorded in a call log, and their outcome is read from an environment.

    Conventions of the model:
    - a handler runs from start to end without another one interleaved;
    - a document that parses has the shape the bot itself writes (integer
      role ids per guild, lists of warning records per guild and user), and
      writing a document succeeds;
    - identifiers handed out by the platform are positive integers, roles
      are ordered by their rank in the guild;
    - the clock is an input of the handler that reads it, and the timestamp
      the embeds carry is left out. *)

From stdpp Require Import base strings pretty list gmap.
From Stdlib Require Import ZArith Lia Ascii.

(** ** Python values used by the bot *)

(** Exceptions that travel through the handlers. *)
Inductive exn : Type :=
| JSONDecodeError   (* json.load on text that is not JSON *)
| PermissionError   (* open() on a file that cannot be read *)
| CheckFailure      (* app_commands check returned False *)
| Forbidden         (* discord.Forbidden *)
| NotFound          (* discord.NotFound *)
| HTTPException.    (* any other discord.HTTPException *)

Inductive outcome (A : Type) : Type :=
| Ok (a : A)
| Raise (e : exn).
Arguments Ok {A} a.
Arguments Raise {A} e.

(** State of a backing file, as seen by [os.path.exists], [open] and
    [json.load]. [Json d] is a file holding the JSON text of [d]. *)
Inductive file (D : Type) : Type :=
| Missing
| Unreadable
| Corrupt
| Json (d : D).
Arguments Missing {D}.
Arguments Unreadable {D}.
Arguments Corrupt {D}.
Arguments Json {D} d.

(** One warning, the dict built in [warn]. *)
Record WarningRecord : Type := {
  reason : string;
  moderator : string;
  timestamp : string
}.

(** config.json: guild id (as text) -> {"mod_role_id": int, "admin_role_id": int}. *)
Abbreviation config_doc := (gmap string (gmap string Z)).
(** warnings.json: guild id (as text) -> user id (as text) -> list of warnings. *)
Abbreviation warnings_doc := (gmap string (gmap string (list WarningRecord))).

(** [str(n)] for an identifier. *)
Definition str (n : positive) : string := pretty n.

(** [d.setdefault(k, v)]: the dict after the call and the value returned. *)
Definition setdefault {V} (d : gmap string V) (k : string) (v : V) : gmap string V * V :=
  match d !! k with
  | Some x => (d, x)
  | None => (<[k := v]> d, v)
  end.

(** [d.get(k, v)]. *)
Definition get {V} (d : gmap string V) (k : string) (v : V) : V :=
  default v (d !! k).

(** [d[k]] for a key that is present (it was just put there by
    [setdefault]); an absent key would be a KeyError. *)
Definition item {V} `{Inhabited V} (d : gmap string V) (k : string) : V :=
  default inhabitant (d !! k).

(** Truth value of an optional integer ([None] and [0] are false). *)
Definition truthy (o : option Z) : bool :=
  match o with
  | Some z => negb (z =? 0)%Z
  | None => false
  end.

(** [o in ids] for a set of integers. *)
Definition py_in (o : option Z) (ids : list Z) : bool :=
  match o with
  | Some z => bool_decide (z ∈ ids)
  | None => false
  end.

(** ** Platform objects *)

(** Identifiers are platform snowflakes: positive integers. A role has a
    linear rank inside its guild; roles compare by rank. *)
Record Role : Type := {
  role_id : positive;
  role_rank : Z;
  role_mention : string
}.

Definition role_ge (a b : Role) : bool := (role_rank b <=? role_rank a)%Z.

Record Member : Type := {
  member_id : positive;
  member_str : string;        (* str(member) *)
  member_mention : string;
  administrator : bool;       (* guild_permissions.administrator *)
  roles : list Role;
  top_role : Role
}.

Record Guild : Type := {
  guild_id : positive;
  guild_name : string;
  guild_channels : list positive
}.

Definition get_channel (g : Guild) (cid : Z) : option positive :=
  List.find (λ c, (Z.pos c =? cid)%Z) (guild_channels g).

Record Interaction : Type := {
  user : Member;
  guild : Guild
}.

Inductive Colour : Type :=
| red | green | orange | yellow | blurple | dark_orange.

Record Embed : Type := {
  title : string;
  colour : Colour;
  fields : list (string * string);
  footer : string
}.

(** ** Field labels: [name.replace("_", " ").title()] on ASCII names *)

Definition is_lower (c : ascii) : bool :=
  let n := N_of_ascii c in ((97 <=? n) && (n <=? 122))%N.
Definition is_upper (c : ascii) : bool :=
  let n := N_of_ascii c in ((65 <=? n) && (n <=? 90))%N.
Definition to_upper (c : ascii) : ascii :=
  if is_lower c then ascii_of_N (N_of_ascii c - 32) else c.
Definition to_lower (c : ascii) : ascii :=
  if is_upper c then ascii_of_N (N_of_ascii c + 32) else c.

Fixpoint replace_underscore (s : string) : string :=
  match s with
  | EmptyString => EmptyString
  | String c r =>
      String (if Ascii.eqb c "_" then " "%char else c) (replace_underscore r)
  end.

Fixpoint title_from (prev_cased : bool) (s : string) : string :=
  match s with
  | EmptyString => EmptyString
  | String c r =>
      String (if prev_cased then to_lower c else to_upper c)
             (title_from (is_lower c || is_upper c) r)
  end.

Definition label (name : string) : string :=
  title_from false (replace_underscore name).

Definition mod_embed (title : string) (colour : Colour)
    (fields : list (string * string)) : Embed :=
  {| title := title;
     colour := colour;
     fields := (λ f, (label f.1, f.2)) <$> fields;
     footer := "Moderation Bot" |}.

(** ** Requests to the platform *)

Inductive payload : Type :=
| Text (s : string)
| Emb (e : Embed).

Inductive call : Type :=
| send_message (i : Interaction) (p : payload) (ephemeral : bool)
| member_send (m : Member) (e : Embed)
| member_ban (m : Member) (why : string) (delete_message_days : Z)
| member_kick (m : Member) (why : string)
| member_timeout (m : Member) (minutes : option Z) (why : string)
| add_roles (m : Member) (r : Role) (why : string)
| remove_roles (m : Member) (r : Role) (why : string)
| channel_send (ch : positive) (e : Embed).

(** What the process was started with and how the platform answers. *)
Record Env : Type := {
  LOG_CHANNEL_ID : option Z;
  platform : call → option exn
}.

(** ** The world a handler runs in *)

Record World : Type := {
  config_json : file config_doc;
  warnings_json : file warnings_doc;
  calls : list call
}.

Definition M (A : Type) : Type := Env → World → outcome A * World.

Definition ret {A} (a : A) : M A := λ _ w, (Ok a, w).
Definition bind {A B} (m : M A) (k : A → M B) : M B :=
  λ env w,
    match m env w with
    | (Ok a, w') => k a env w'
    | (Raise e, w') => (Raise e, w')
    end.
Definition raise {A} (e : exn) : M A := λ _ w, (Raise e, w).

#[global] Instance M_ret : MRet M := @ret.
#[global] Instance M_bind : MBind M := λ A B k m, bind m k.

(** [try: body except discord.Forbidden: pass]. *)
Definition except_Forbidden (body : M unit) : M unit :=
  λ env w,
    match body env w with
    | (Raise Forbidden, w') => (Ok tt, w')
    | r => r
    end.

(** Issue a request: it is logged, and fails when the platform says so. *)
Definition api (c : call) : M unit :=
  λ env w,
    let w' := {| config_json := config_json w;
                 warnings_json := warnings_json w;
                 calls := calls w ++ [c] |} in
    match platform env c with
    | None => (Ok tt, w')
    | Some e => (Raise e, w')
    end.

Definition ask_log_channel : M (option Z) := λ env w, (Ok (LOG_CHANNEL_ID env), w).

(** ** Config helpers *)

Definition load_config : M config_doc :=
  λ _ w,
    match config_json w with
    | Missing => (Ok ∅, w)
    | Unreadable => (Raise PermissionError, w)
    | Corrupt => (Raise JSONDecodeError, w)
    | Json d => (Ok d, w)
    end.

Definition save_config (data : config_doc) : M unit :=
  λ _ w,
    (Ok tt, {| config_json := Json data;
               warnings_json := warnings_json w;
               calls := calls w |}).

Definition get_mod_role_id (guild_id : positive) : M (option Z) :=
  data ← load_config;
  mret (get data (str guild_id) ∅ !! "mod_role_id").

Definition get_admin_role_id (guild_id : positive) : M (option Z) :=
  data ← load_config;
  mret (get data (str guild_id) ∅ !! "admin_role_id").

(** ** Warning helpers *)

Definition load_warnings : M warnings_doc :=
  λ _ w,
    match warnings_json w with
    | Missing => (Ok ∅, w)
    | Unreadable => (Raise PermissionError, w)
    | Corrupt => (Raise JSONDecodeError, w)
    | Json d => (Ok d, w)
    end.

Definition save_warnings (data : warnings_doc) : M unit :=
  λ _ w,
    (Ok tt, {| config_json := config_json w;
               warnings_json := Json data;
               calls := calls w |}).

(** ** Shared helpers *)

Definition log (guild : Guild) (embed : Embed) : M unit :=
  log_id ← ask_log_channel;
  if truthy log_id then
    match get_channel guild (default 0%Z log_id) with
    | Some ch => api (channel_send ch embed)
    | None => mret tt
    end
  else mret tt.

(** ** Permission checks *)

Definition role_ids (u : Member) : list Z := (λ r, Z.pos (role_id r)) <$> roles u.

Definition is_mod (interaction : Interaction) : M bool :=
  let user := user interaction in
  if administrator user then mret true
  else
    let gid := guild_id (guild interaction) in
    admin_id ← get_admin_role_id gid;
    mod_id ← get_mod_role_id gid;
    let role_ids := role_ids user in
    if (truthy admin_id && py_in admin_id role_ids)
       || (truthy mod_id && py_in mod_id role_ids)
    then mret true
    else
      api (send_message interaction
             (Text "❌ You need a **Moderator** or **Admin** role to use this command.")
             true);;
      mret false.

Definition is_admin (interaction : Interaction) : M bool :=
  let user := user interaction in
  if administrator user then mret true
  else
    admin_id ← get_admin_role_id (guild_id (guild interaction));
    if truthy admin_id && py_in admin_id (role_ids user)
    then mret true
    else
      api (send_message interaction
             (Text "❌ You need an **Admin** role to use this command.")
             true);;
      mret false.

(** A handler behind [@check]: the callback runs only when the predicate
    returned True. *)
Definition checked (predicate : Interaction → M bool)
    (interaction : Interaction) (callback : M unit) : M unit :=
  predicate interaction ≫= λ ok : bool,
    if ok then callback else raise CheckFailure.

(** ** Admin-only commands *)

(** Lines 210-212 of [setmodrole]: read, update the guild's entry, write. *)
Definition set_mod_role (interaction : Interaction) (role : Role) : M unit :=
  data ← load_config;
  let '(data, entry) := setdefault data (str (guild_id (guild interaction))) ∅ in
  let data :=
    <[str (guild_id (guild interaction)) :=
        <["mod_role_id" := Z.pos (role_id role)]> entry]> data in
  save_config data.

Definition setmodrole_body (interaction : Interaction) (role : Role) : M unit :=
  set_mod_role interaction role;;
  api (send_message interaction
         (Text ("✅ **Moderator** role set to " +:+ role_mention role +:+ "."))
         true).

Definition setmodrole (interaction : Interaction) (role : Role) : M unit :=
  checked is_admin interaction (setmodrole_body interaction role).

Definition set_admin_role (interaction : Interaction) (role : Role) : M unit :=
  data ← load_config;
  let '(data, entry) := setdefault data (str (guild_id (guild interaction))) ∅ in
  let data :=
    <[str (guild_id (guild interaction)) :=
        <["admin_role_id" := Z.pos (role_id role)]> entry]> data in
  save_config data.

Definition setadminrole_body (interaction : Interaction) (role : Role) : M unit :=
  set_admin_role interaction role;;
  api (send_message interaction
         (Text ("✅ **Admin** role set to " +:+ role_mention role +:+ "."))
         true).

Definition setadminrole (interaction : Interaction) (role : Role) : M unit :=
  checked is_admin interaction (setadminrole_body interaction role).

Definition ban_body (interaction : Interaction) (member : Member)
    (reason : string) (delete_days : Z) : M unit :=
  if role_ge (top_role member) (top_role (user interaction)) then
    api (send_message interaction
           (Text "❌ You cannot ban someone with an equal or higher role.") true)
  else
    except_Forbidden
      (api (member_send member
              (mod_embed
                 ("🔨 You have been banned from " +:+ guild_name (guild interaction))
                 red
                 [("reason", reason);
                  ("moderator", member_str (user interaction))])));;
    api (member_ban member (member_str (user interaction) +:+ ": " +:+ reason)
           delete_days);;
    let embed :=
      mod_embed "🔨 Member Banned" red
        [("member", member_str member +:+ " (" +:+ str (member_id member) +:+ ")");
         ("reason", reason);
         ("moderator", member_mention (user interaction))] in
    api (send_message interaction (Emb embed) false);;
    log (guild interaction) embed.

Definition ban (interaction : Interaction) (member : Member)
    (reason : string) (delete_days : Z) : M unit :=
  checked is_admin interaction (ban_body interaction member reason delete_days).

(** Lines 290-294 of [clearwarnings]. *)
Definition clear_warnings (interaction : Interaction) (member : Member) : M unit :=
  data ← load_warnings;
  let guild_id := str (guild_id (guild interaction)) in
  let user_id := str (member_id member) in
  let data :=
    match data !! guild_id with
    | Some entry => <[guild_id := delete user_id entry]> data
    | None => data
    end in
  save_warnings data.

Definition clearwarnings_body (interaction : Interaction) (member : Member) : M unit :=
  clear_warnings interaction member;;
  let embed :=
    mod_embed "🧹 Warnings Cleared" green
      [("member", member_str member +:+ " (" +:+ str (member_id member) +:+ ")");
       ("moderator", member_mention (user interaction))] in
  api (send_message interaction (Emb embed) false);;
  log (guild interaction) embed.

Definition clearwarnings (interaction : Interaction) (member : Member) : M unit :=
  checked is_admin interaction (clearwarnings_body interaction member).

Definition role_cmd_body (interaction : Interaction) (member : Member)
    (role : Role) (action : string) : M unit :=
  if role_ge role (top_role (user interaction))
     && negb (administrator (user interaction))
  then
    api (send_message interaction
           (Text "❌ You cannot assign a role equal to or higher than your own.") true)
  else
    verb ← (if String.eqb action "add" then
              api (add_roles member role
                     ("Role granted by " +:+ member_str (user interaction)));;
              mret "Added"
            else
              api (remove_roles member role
                     ("Role removed by " +:+ member_str (user interaction)));;
              mret "Removed");
    let embed :=
      mod_embed ("🎭 Role " +:+ verb) blurple
        [("member", member_mention member);
         ("role", role_mention role);
         ("action", verb);
         ("moderator", member_mention (user interaction))] in
    api (send_message interaction (Emb embed) false);;
    log (guild interaction) embed.

Definition role_cmd (interaction : Interaction) (member : Member)
    (role : Role) (action : string) : M unit :=
  checked is_admin interaction (role_cmd_body interaction member role action).

(** ** Moderator commands *)

Definition kick_body (interaction : Interaction) (member : Member)
    (reason : string) : M unit :=
  if role_ge (top_role member) (top_role (user interaction)) then
    api (send_message interaction
           (Text "❌ You cannot kick someone with an equal or higher role.") true)
  else
    except_Forbidden
      (api (member_send member
              (mod_embed
                 ("👢 You have been kicked from " +:+ guild_name (guild interaction))
                 orange
                 [("reason", reason);
                  ("moderator", member_str (user interaction))])));;
    api (member_kick member (member_str (user interaction) +:+ ": " +:+ reason));;
    let embed :=
      mod_embed "👢 Member Kicked" orange
        [("member", member_str member +:+ " (" +:+ str (member_id member) +:+ ")");
         ("reason", reason);
         ("moderator", member_mention (user interaction))] in
    api (send_message interaction (Emb embed) false);;
    log (guild interaction) embed.

Definition kick (interaction : Interaction) (member : Member)
    (reason : string) : M unit :=
  checked is_mod interaction (kick_body interaction member reason).

Definition timeout_cmd_body (interaction : Interaction) (member : Member)
    (minutes : Z) (reason : string) : M unit :=
  if role_ge (top_role member) (top_role (user interaction)) then
    api (send_message interaction
           (Text "❌ You cannot timeout someone with an equal or higher role.") true)
  else
    (* until = utcnow() + timedelta(minutes): the request carries the minutes *)
    api (member_timeout member (Some minutes)
           (member_str (user interaction) +:+ ": " +:+ reason));;
    let embed :=
      mod_embed "🔇 Member Timed Out" dark_orange
        [("member", member_str member +:+ " (" +:+ str (member_id member) +:+ ")");
         ("duration", pretty minutes +:+ " minute(s)");
         ("reason", reason);
         ("moderator", member_mention (user interaction))] in
    api (send_message interaction (Emb embed) false);;
    log (guild interaction) embed.

Definition timeout_cmd (interaction : Interaction) (member : Member)
    (minutes : Z) (reason : string) : M unit :=
  checked is_mod interaction (timeout_cmd_body interaction member minutes reason).

Definition untimeout_cmd_body (interaction : Interaction) (member : Member)
    (reason : string) : M unit :=
  api (member_timeout member None
         (member_str (user interaction) +:+ ": " +:+ reason));;
  let embed :=
    mod_embed "🔊 Timeout Removed" green
      [("member", member_str member +:+ " (" +:+ str (member_id member) +:+ ")");
       ("reason", reason);
       ("moderator", member_mention (user interaction))] in
  api (send_message interaction (Emb embed) false);;
  log (guild interaction) embed.

Definition untimeout_cmd (interaction : Interaction) (member : Member)
    (reason : string) : M unit :=
  checked is_mod interaction (untimeout_cmd_body interaction member reason).

(** Lines 462-473 of [warn]: append one record and return the new count.
    [now] is [datetime.utcnow().isoformat()] at the time of the call. *)
Definition add_warning (interaction : Interaction) (member : Member)
    (reason now : string) : M nat :=
  data ← load_warnings;
  let guild_id := str (guild_id (guild interaction)) in
  let user_id := str (member_id member) in
  let '(data, entry) := setdefault data guild_id ∅ in
  let '(entry, _) := setdefault entry user_id [] in
  let data := <[guild_id := entry]> data in
  let entry :=
    {| reason := reason;
       moderator := member_str (user interaction);
       timestamp := now |} in
  let data :=
    <[guild_id :=
        <[user_id := item (item data guild_id) user_id ++ [entry]]>
          (item data guild_id)]>
      data in
  save_warnings data;;
  mret (length (item (item data guild_id) user_id)).

Definition warn_body (interaction : Interaction) (member : Member)
    (reason now : string) : M unit :=
  count ← add_warning interaction member reason now;
  except_Forbidden
    (api (member_send member
            (mod_embed
               ("⚠️ You have been warned in " +:+ guild_name (guild interaction))
               yellow
               [("reason", reason);
                ("moderator", member_str (user interaction));
                ("total_warnings", pretty count)])));;
  let embed :=
    mod_embed "⚠️ Member Warned" yellow
      [("member", member_str member +:+ " (" +:+ str (member_id member) +:+ ")");
       ("reason", reason);
       ("total_warnings", pretty count);
       ("moderator", member_mention (user interaction))] in
  api (send_message interaction (Emb embed) false);;
  log (guild interaction) embed.

Definition warn (interaction : Interaction) (member : Member)
    (reason now : string) : M unit :=
  checked is_mod interaction (warn_body interaction member reason now).

(** Lines 499-502 of [warnings]: the records kept for a member. *)
Definition list_warnings (interaction : Interaction) (member : Member)
    : M (list WarningRecord) :=
  data ← load_warnings;
  let guild_id := str (guild_id (guild interaction)) in
  let user_id := str (member_id member) in
  mret (get (get data guild_id ∅) user_id []).

Definition warnings_body (interaction : Interaction) (member : Member) : M unit :=
  warns ← list_warnings interaction member;
  match warns with
  | [] =>
      api (send_message interaction
             (Text ("✅ " +:+ member_mention member +:+ " has no warnings.")) true)
  | _ =>
      let embed :=
        {| title := "⚠️ Warnings for " +:+ member_str member;
           colour := yellow;
           fields :=
             imap (λ i w,
                     ("Warning " +:+ pretty (S i),
                      "**Reason:** " +:+ reason w +:+ "
**Mod:** " +:+ moderator w +:+ "
**Date:** " +:+ String.substring 0 10 (timestamp w)))
                  warns;
           footer := "Total: " +:+ pretty (length warns) +:+ " warning(s)" |} in
      api (send_message interaction (Emb embed) true)
  end.

Definition warnings (interaction : Interaction) (member : Member) : M unit :=
  checked is_mod interaction (warnings_body interaction member).

(** ** General commands *)

(** Lines 652-653 of [userinfo]: the number of warnings shown for a member.
    The command has no permission check. *)
Definition warn_count (interaction : Interaction) (member : Member) : M nat :=
  data ← load_warnings;
  mret (length (get (get data (str (guild_id (guild interaction))) ∅)
                  (str (member_id member)) [])).

(** * Vocabulary of the properties *)

(** What the configuration says about a guild, when there is a document. *)
Definition configured (cfg : file config_doc) (gid : positive) (key : string)
    : option Z :=
  match cfg with
  | Json d => d !! str gid ≫= (.!! key)
  | _ => None
  end.

Definition holds_role (u : Member) (rid : Z) : Prop :=
  ∃ r, r ∈ roles u ∧ Z.pos (role_id r) = rid.

Definition holds_configured (key : string) (i : Interaction) (w : World) : Prop :=
  ∃ rid, configured (config_json w) (guild_id (guild i)) key = Some rid
         ∧ holds_role (user i) rid.

(** The records kept for a (guild, user) key, when there is a document. *)
Definition recorded (f : file warnings_doc) (g u : string) : list WarningRecord :=
  match f with
  | Json d => get (get d g ∅) u []
  | _ => []
  end.

(** The raw entry under a (guild, user) key of a warnings document. *)
Definition entry_at (d : warnings_doc) (g u : string) : option (list WarningRecord) :=
  d !! g ≫= (.!! u).

(** The record [warn] builds for one request. *)
Definition record_of (actor : Member) (reason now : string) : WarningRecord :=
  {| reason := reason; moderator := member_str actor; timestamp := now |}.

(** [add_warning] run once per request (actor, reason, time), in order, for
    one guild and one member; the counts returned are collected. *)
Fixpoint add_warnings (g : Guild) (member : Member)
    (reqs : list (Member * string * string)) : M (list nat) :=
  match reqs with
  | [] => mret []
  | (actor, reason, now) :: rest =>
      n ← add_warning {| user := actor; guild := g |} member reason now;
      ns ← add_warnings g member rest;
      mret (n :: ns)
  end.

(** Requests that act on a member or on roles, as opposed to messages. *)
Definition is_privileged (c : call) : bool :=
  match c with
  | member_ban _ _ _ | member_kick _ _ | member_timeout _ _ _
  | add_roles _ _ _ | remove_roles _ _ _ => true
  | send_message _ _ _ | member_send _ _ | channel_send _ _ => false
  end.

(** The world after some more requests were issued. *)
Definition with_calls (w : World) (cs : list call) : World :=
  {| config_json := config_json w;
     warnings_json := warnings_json w;
     calls := calls w ++ cs |}.

(** The world after warnings.json was rewritten. *)
Definition with_warnings (w : World) (d : warnings_doc) : World :=
  {| config_json := config_json w;
     warnings_json := Json d;
     calls := calls w |}.

(** The world after config.json was rewritten. *)
Definition with_config (w : World) (d : config_doc) : World :=
  {| config_json := Json d;
     warnings_json := warnings_json w;
     calls := calls w |}.

(** The document written by one [add_warning]. *)
Definition appended (d : warnings_doc) (g u : string) (r : WarningRecord)
    : warnings_doc :=
  <[g := <[u := get (get d g ∅) u [] ++ [r]]> (get d g ∅)]> d.

(** A run that leaves both documents as they were and issues no privileged
    request: whatever it sent were messages. *)
Definition quiet_at {A} (m : M A) (env : Env) (w : World) : Prop :=
  config_json (m env w).2 = config_json w
  ∧ warnings_json (m env w).2 = warnings_json w
  ∧ ∃ new, calls (m env w).2 = calls w ++ new
           ∧ Forall (λ c, is_privileged c = false) new.

Definition quiet {A} (m : M A) : Prop := ∀ env w, quiet_at m env w.

(** What [log] sends for an embed: one message to the log channel when an
    id is configured and the guild has that channel, nothing otherwise. *)
Definition audit_calls (env : Env) (g : Guild) (e : Embed) : list call :=
  match LOG_CHANNEL_ID env with
  | Some c =>
      if (c =? 0)%Z then []
      else match get_channel g c with
           | Some ch => [channel_send ch e]
           | None => []
           end
  | None => []
  end.

(** ** A small guild to run the handlers on *)

Module Sample.

Definition everyone : Role :=
  {| role_id := 100; role_rank := 0; role_mention := "@everyone" |}.
Definition helper : Role :=
  {| role_id := 6; role_rank := 1; role_mention := "<@&6>" |}.
Definition mods : Role :=
  {| role_id := 7; role_rank := 4; role_mention := "<@&7>" |}.
Definition staff : Role :=
  {| role_id := 8; role_rank := 5; role_mention := "<@&8>" |}.
Definition founders : Role :=
  {| role_id := 9; role_rank := 9; role_mention := "<@&9>" |}.

(** Holds the configured admin role, no platform permission. *)
Definition ada : Member :=
  {| member_id := 51; member_str := "ada"; member_mention := "<@51>";
     administrator := false; roles := [everyone; staff]; top_role := staff |}.
(** Holds the configured moderator role only. *)
Definition mod1 : Member :=
  {| member_id := 52; member_str := "mod#1"; member_mention := "<@52>";
     administrator := false; roles := [everyone; mods]; top_role := mods |}.
(** No role besides @everyone. *)
Definition newcomer : Member :=
  {| member_id := 55; member_str := "newcomer"; member_mention := "<@55>";
     administrator := false; roles := [everyone]; top_role := everyone |}.
(** Outranks everybody else. *)
Definition elder : Member :=
  {| member_id := 59; member_str := "elder"; member_mention := "<@59>";
     administrator := false; roles := [everyone; founders];
     top_role := founders |}.
(** Platform administrator with a low top role. *)
Definition root : Member :=
  {| member_id := 50; member_str := "root"; member_mention := "<@50>";
     administrator := true; roles := [everyone; helper]; top_role := helper |}.

Definition server : Guild :=
  {| guild_id := 100; guild_name := "faithless"; guild_channels := [900%positive] |}.

Definition by_ (u : Member) : Interaction := {| user := u; guild := server |}.

Definition config : config_doc :=
  <["100" := <["admin_role_id" := 8%Z]> (<["mod_role_id" := 7%Z]> ∅)]> ∅.

Definition ledger : warnings_doc :=
  <["100" := <["59" := [record_of ada "old" "2024-01-01T00:00:00"]]> ∅]> ∅.

(** Every request succeeds; audit records go to channel 900. *)
Definition env_ok : Env :=
  {| LOG_CHANNEL_ID := Some 900%Z; platform := λ _, None |}.

(** As [env_ok], but nobody accepts direct messages. *)
Definition env_dm_closed : Env :=
  {| LOG_CHANNEL_ID := Some 900%Z;
     platform := λ c, match c with
                      | member_send _ _ => Some Forbidden
                      | _ => None
                      end |}.

Definition world : World :=
  {| config_json := Json config; warnings_json := Json ledger; calls := [] |}.

Definition fresh : World :=
  {| config_json := Missing; warnings_json := Missing; calls := [] |}.

Definition broken : World :=
  {| config_json := Corrupt; warnings_json := Unreadable; calls := [] |}.

(** Three warnings for one member, by two moderators. *)
Definition three : list (Member * string * string) :=
  [(mod1, "spam", "2024-03-01T10:00:00");
   (ada, "flood", "2024-03-02T11:30:00");
   (mod1, "spam again", "2024-03-05T09:15:00")].

(** A second guild, without configuration. *)
Definition elsewhere : Guild :=
  {| guild_id := 200; guild_name := "elsewhere"; guild_channels := [] |}.

(** As [env_ok], but direct messages fail with a server error. *)
Definition env_dm_down : Env :=
  {| LOG_CHANNEL_ID := Some 900%Z;
     platform := λ c, match c with
                      | member_send _ _ => Some HTTPException
                      | _ => None
                      end |}.

(** As [env_ok], but the platform refuses every privileged request. *)
Definition env_no_actions : Env :=
  {| LOG_CHANNEL_ID := Some 900%Z;
     platform := λ c, if is_privileged c then Some Forbidden else None |}.

(** No log channel is configured. *)
Definition env_no_log : Env :=
  {| LOG_CHANNEL_ID := None; platform := λ _, Some HTTPException |}.

End Sample.

(** ** Vocabulary of the further properties *)

(** The configuration after one role id was stored for a guild. *)
Definition with_role (d : config_doc) (g key : string) (rid : Z) : config_doc :=
  <[g := <[key := rid]> (get d g ∅)]> d.

(** What a configuration document says about a guild. *)
Definition role_at (d : config_doc) (g key : string) : option Z :=
  d !! g ≫= (.!! key).

(** The ledger after the warnings of one member were cleared. *)
Definition cleared (d : warnings_doc) (g u : string) : warnings_doc :=
  match d !! g with
  | Some entry => <[g := delete u entry]> d
  | None => d
  end.

(** Two environments that differ at most in whether direct messages are
    delivered or refused with Forbidden. *)
Definition agree_up_to_dms (e1 e2 : Env) : Prop :=
  LOG_CHANNEL_ID e1 = LOG_CHANNEL_ID e2
  ∧ ∀ c,
      match c with
      | member_send _ _ =>
          (platform e1 c = None ∨ platform e1 c = Some Forbidden)
          ∧ (platform e2 c = None ∨ platform e2 c = Some Forbidden)
      | _ => platform e1 c = platform e2 c
      end.

(** A character that has an upper and a lower case form. *)
Definition cased (c : ascii) : bool := is_lower c || is_upper c.

(** The character a label shows for a character of the keyword. *)
Definition relabel_char (prev_cased : bool) (c : ascii) : ascii :=
  if prev_cased then to_lower c else to_upper c.

(** A keyword written in ASCII, as the field names of the handlers are. *)
Definition ascii_name (s : string) : Prop :=
  Forall (λ c, (N_of_ascii c < 128)%N) (String.list_ascii_of_string s).

(** * Properties *)

(** ** Running handlers *)

Lemma bind_run {A B} (m : M A) (k : A → M B) env w :
  (m ≫= k) env w =
  match m env w with
  | (Ok a, w') => k a env w'
  | (Raise e, w') => (Raise e, w')
  end.
Proof. reflexivity. Qed.

Lemma ret_run {A} (a : A) env w : (mret a : M A) env w = (Ok a, w).
Proof. reflexivity. Qed.

(** A request never touches the two documents. *)
Lemma api_files c env w :
  config_json (api c env w).2 = config_json w
  ∧ warnings_json (api c env w).2 = warnings_json w
  ∧ calls (api c env w).2 = calls w ++ [c].
Proof. unfold api. destruct (platform env c); simpl; auto. Qed.

Lemma get_lookup (d : config_doc) (g key : string) :
  get d g ∅ !! key = d !! g ≫= (.!! key).
Proof. unfold get. destruct (d !! g); simpl; [done | apply lookup_empty]. Qed.

Lemma py_in_holds (u : Member) (o : option Z) :
  truthy o && py_in o (role_ids u) = true ↔ ∃ rid, o = Some rid ∧ holds_role u rid.
Proof.
  destruct o as [z|]; simpl.
  - rewrite andb_true_iff, bool_decide_eq_true. unfold role_ids, holds_role.
    rewrite list_elem_of_fmap. split.
    + intros [_ (r & -> & Hr)]. eauto.
    + intros (rid & [= <-] & r & Hr & Hz). split.
      * subst z. reflexivity.
      * eauto.
  - split; [discriminate | intros (? & [=] & _)].
Qed.

(** Reading a role id: the outcome for each state of config.json. *)
Lemma get_role_id_run (key : string) gid env w :
  (load_config ≫= λ data, mret (get data (str gid) ∅ !! key)) env w =
  match config_json w with
  | Missing => (Ok None, w)
  | Unreadable => (Raise PermissionError, w)
  | Corrupt => (Raise JSONDecodeError, w)
  | Json d => (Ok (configured (config_json w) gid key), w)
  end.
Proof.
  rewrite bind_run. unfold load_config, configured.
  destruct (config_json w); try reflexivity.
  rewrite ret_run, get_lookup. reflexivity.
Qed.

Lemma is_admin_true_iff i env w :
  (is_admin i env w).1 = Ok true ↔
  administrator (user i) = true ∨ holds_configured "admin_role_id" i w.
Proof.
  unfold is_admin, holds_configured.
  destruct (administrator (user i)) eqn:Hadm; [simpl; tauto|].
  unfold get_admin_role_id. rewrite bind_run, get_role_id_run.
  destruct (config_json w) as [| | |d] eqn:Hcfg; simpl.
  - split; [| intros [?|(? & ? & _)]]; try discriminate.
    rewrite bind_run. destruct (api _ env w) as [[[]|] ?]; discriminate.
  - split; [| intros [?|(? & ? & _)]]; discriminate.
  - split; [| intros [?|(? & ? & _)]]; discriminate.
  - pose proof (py_in_holds (user i) (d !! str (guild_id (guild i)) ≫= (.!! "admin_role_id"))) as Hin.
    destruct (truthy _ && py_in _ _).
    + simpl. split; [intros _; right; apply Hin; reflexivity | reflexivity].
    + rewrite bind_run. split.
      * destruct (api _ env w) as [[[]|] ?]; discriminate.
      * intros [?|H]; [discriminate|]. apply Hin in H. discriminate.
Qed.

Lemma is_mod_true_iff i env w :
  (is_mod i env w).1 = Ok true ↔
  administrator (user i) = true
  ∨ holds_configured "admin_role_id" i w
  ∨ holds_configured "mod_role_id" i w.
Proof.
  unfold is_mod, holds_configured.
  destruct (administrator (user i)) eqn:Hadm; [simpl; tauto|].
  unfold get_admin_role_id, get_mod_role_id.
  rewrite bind_run, get_role_id_run.
  destruct (config_json w) as [| | |d] eqn:Hcfg; simpl.
  - split; [| intros [?|[(? & ? & _)|(? & ? & _)]]]; try discriminate.
    rewrite bind_run, get_role_id_run, Hcfg. simpl.
    rewrite bind_run. destruct (api _ env w) as [[[]|] ?]; discriminate.
  - split; [| intros [?|[(? & ? & _)|(? & ? & _)]]]; discriminate.
  - split; [| intros [?|[(? & ? & _)|(? & ? & _)]]]; discriminate.
  - rewrite bind_run, get_role_id_run, Hcfg. simpl.
    pose proof (py_in_holds (user i) (d !! str (guild_id (guild i)) ≫= (.!! "admin_role_id"))) as Ha.
    pose proof (py_in_holds (user i) (d !! str (guild_id (guild i)) ≫= (.!! "mod_role_id"))) as Hm.
    destruct (truthy _ && py_in _ _); simpl.
    + split; [intros _; right; left; apply Ha; reflexivity | reflexivity].
    + destruct (truthy _ && py_in _ _); simpl.
      * split; [intros _; right; right; apply Hm; reflexivity | reflexivity].
      * rewrite bind_run. split.
        -- destruct (api _ env w) as [[[]|] ?]; discriminate.
        -- intros [?|[H|H]]; [discriminate| |].
           ++ apply Ha in H. discriminate.
           ++ apply Hm in H. discriminate.
Qed.

(** C1. The moderator check passes exactly for a platform administrator, a
    holder of the guild's configured admin role, or a holder of its
    configured moderator role; the admin check passes exactly for the first
    two, so the moderator role alone never passes it; and whoever passes the
    admin check passes the moderator check. *)
Theorem permission_checks (i : Interaction) (env : Env) (w : World) :
  ((is_mod i env w).1 = Ok true ↔
     administrator (user i) = true
     ∨ holds_configured "admin_role_id" i w
     ∨ holds_configured "mod_role_id" i w)
  ∧ ((is_admin i env w).1 = Ok true ↔
       administrator (user i) = true ∨ holds_configured "admin_role_id" i w)
  ∧ (administrator (user i) = false →
     ¬ holds_configured "admin_role_id" i w →
     (is_admin i env w).1 ≠ Ok true)
  ∧ ((is_admin i env w).1 = Ok true → (is_mod i env w).1 = Ok true).
Proof.
  pose proof (is_mod_true_iff i env w) as Hm.
  pose proof (is_admin_true_iff i env w) as Ha.
  repeat split; try tauto.
  intros Hadm Hno H. apply Ha in H. destruct H; [congruence | tauto].
Qed.

(** ** The warning ledger *)

Lemma load_warnings_ok env w d :
  load_warnings env w = (Ok d, w) ↔
  (warnings_json w = Missing ∧ d = ∅) ∨ warnings_json w = Json d.
Proof.
  unfold load_warnings. destruct (warnings_json w); split;
    intros H; try (injection H as <-); try discriminate; auto;
    destruct H as [[? ->]|?]; try discriminate; try congruence.
Qed.

Lemma add_warning_run i member reason now env w d :
  load_warnings env w = (Ok d, w) →
  add_warning i member reason now env w =
  (Ok (S (length (get (get d (str (guild_id (guild i))) ∅)
                      (str (member_id member)) []))),
   with_warnings w
     (appended d (str (guild_id (guild i))) (str (member_id member))
        (record_of (user i) reason now))).
Proof.
  intros Hload. unfold add_warning. rewrite bind_run, Hload.
  set (g := str (guild_id (guild i))). set (u := str (member_id member)).
  unfold appended, get, setdefault, item, record_of.
  destruct (d !! g) as [e|] eqn:Hg; simpl.
  - destruct (e !! u) as [l|] eqn:Hu; simpl;
      rewrite bind_run; unfold save_warnings, with_warnings; simpl;
      repeat (progress (rewrite ?lookup_insert_eq, ?insert_insert_eq, ?Hu; simpl));
      rewrite ret_run, ?length_app; simpl; repeat f_equal; lia.
  - rewrite lookup_empty. simpl.
    rewrite bind_run. unfold save_warnings, with_warnings. simpl.
    repeat (progress (rewrite ?lookup_insert_eq, ?insert_insert_eq; simpl)).
    reflexivity.
Qed.

Lemma appended_here (d : warnings_doc) g u r :
  get (get (appended d g u r) g ∅) u [] = get (get d g ∅) u [] ++ [r].
Proof.
  unfold appended, get at 1 2. rewrite lookup_insert_eq. simpl.
  rewrite lookup_insert_eq. reflexivity.
Qed.

Lemma appended_elsewhere (d : warnings_doc) g u r g' u' :
  (g', u') ≠ (g, u) →
  entry_at (appended d g u r) g' u' = entry_at d g' u'.
Proof.
  intros Hne. unfold entry_at, appended, get.
  destruct (decide (g' = g)) as [->|Hg].
  - rewrite lookup_insert_eq. simpl.
    assert (u ≠ u') by congruence.
    rewrite lookup_insert_ne by done.
    destruct (d !! g); simpl; [done | apply lookup_empty].
  - rewrite lookup_insert_ne by done. reflexivity.
Qed.

Lemma list_warnings_run i member env w :
  list_warnings i member env w =
  match warnings_json w with
  | Missing => (Ok [], w)
  | Unreadable => (Raise PermissionError, w)
  | Corrupt => (Raise JSONDecodeError, w)
  | Json d =>
      (Ok (recorded (warnings_json w) (str (guild_id (guild i)))
             (str (member_id member))), w)
  end.
Proof.
  unfold list_warnings. rewrite bind_run. unfold load_warnings.
  destruct (warnings_json w) eqn:Hw; try reflexivity.
Qed.

Lemma load_with_warnings env w d :
  load_warnings env (with_warnings w d) = (Ok d, with_warnings w d).
Proof. reflexivity. Qed.

Lemma add_warnings_run g member reqs :
  ∀ env w d,
    load_warnings env w = (Ok d, w) →
    ∃ w' d',
      add_warnings g member reqs env w =
        (Ok (seq (S (length (get (get d (str (guild_id g)) ∅)
                               (str (member_id member)) [])))
                 (length reqs)), w')
      ∧ load_warnings env w' = (Ok d', w')
      ∧ get (get d' (str (guild_id g)) ∅) (str (member_id member)) [] =
          get (get d (str (guild_id g)) ∅) (str (member_id member)) []
          ++ ((λ q, record_of q.1.1 q.1.2 q.2) <$> reqs).
Proof.
  induction reqs as [|[[actor reason] now] rest IH]; intros env w d Hload.
  - exists w, d. simpl. rewrite app_nil_r. auto.
  - simpl. rewrite bind_run.
    rewrite (add_warning_run _ _ _ _ _ _ _ Hload). simpl.
    set (d1 := appended _ _ _ _).
    destruct (IH env (with_warnings w d1) d1 (load_with_warnings _ _ _))
      as (w' & d' & Hrun & Hload' & Hrec).
    exists w', d'. rewrite bind_run, Hrun. simpl.
    unfold d1 in Hrun, Hrec. rewrite appended_here in Hrec.
    rewrite Hrec, <- app_assoc. simpl.
    split; [|auto].
    rewrite ret_run. do 3 f_equal.
    unfold d1. rewrite appended_here, length_app. simpl.
    f_equal. lia.
Qed.

(** C2. Start from a ledger that holds no record for a (guild, member) pair.
    After N warnings added one after another for that pair, the k-th call
    has returned the count k (so the N-th returned N), and listing the
    pair's warnings yields exactly N records, one per call in call order,
    with the reasons given to the calls. *)
Theorem warnings_after_adds (g : Guild) (member viewer : Member)
    (reqs : list (Member * string * string)) (env : Env) (w : World) :
  list_warnings {| user := viewer; guild := g |} member env w = (Ok [], w) →
  ∃ w' recs,
    add_warnings g member reqs env w = (Ok (seq 1 (length reqs)), w')
    ∧ list_warnings {| user := viewer; guild := g |} member env w' = (Ok recs, w')
    ∧ length recs = length reqs
    ∧ reason <$> recs = (λ q, q.1.2) <$> reqs
    ∧ recs = (λ q, record_of q.1.1 q.1.2 q.2) <$> reqs.
Proof.
  intros Hnone. rewrite list_warnings_run in Hnone.
  assert (∃ d, load_warnings env w = (Ok d, w)
               ∧ get (get d (str (guild_id g)) ∅) (str (member_id member)) [] = [])
    as (d & Hload & Hempty).
  { unfold load_warnings. destruct (warnings_json w) as [| | |d] eqn:Hw;
      try discriminate.
    - exists ∅. split; [done|]. unfold get. rewrite lookup_empty. simpl.
      rewrite lookup_empty. reflexivity.
    - exists d. split; [done|]. simpl in Hnone. congruence. }
  destruct (add_warnings_run g member reqs env w d Hload)
    as (w' & d' & Hrun & Hload' & Hrec).
  rewrite Hempty in Hrun, Hrec. simpl in Hrun, Hrec.
  exists w', ((λ q, record_of q.1.1 q.1.2 q.2) <$> reqs).
  split; [exact Hrun|]. split.
  - rewrite list_warnings_run.
    apply load_warnings_ok in Hload' as [[Hm ->]|Hj].
    + rewrite Hm. f_equal. f_equal. rewrite <- Hrec. unfold get.
      rewrite lookup_empty. simpl. rewrite lookup_empty. reflexivity.
    + rewrite Hj. simpl. rewrite Hrec. reflexivity.
  - split; [apply length_fmap|]. split; [|reflexivity].
    rewrite <- list_fmap_compose. reflexivity.
Qed.

(** ** Runs that change nothing *)

Lemma quiet_ret {A} (a : A) : quiet (mret a : M A).
Proof.
  intros env w. repeat split. exists []. rewrite app_nil_r. auto.
Qed.

Lemma quiet_raise {A} (e : exn) : quiet (raise e : M A).
Proof.
  intros env w. repeat split. exists []. rewrite app_nil_r. auto.
Qed.

Lemma quiet_at_bind {A B} (m : M A) (k : A → M B) env w :
  quiet_at m env w →
  (∀ a w', m env w = (Ok a, w') → quiet_at (k a) env w') →
  quiet_at (m ≫= k) env w.
Proof.
  intros (Hc & Hw & new & Hcalls & Hnew) Hk. unfold quiet_at.
  rewrite bind_run. destruct (m env w) as [[a|e] w'] eqn:Hm; simpl in *.
  - destruct (Hk a w' eq_refl) as (Hc' & Hw' & new' & Hcalls' & Hnew').
    repeat split; [congruence | congruence |].
    exists (new ++ new'). split.
    + rewrite Hcalls', Hcalls, app_assoc. reflexivity.
    + apply Forall_app; auto.
  - repeat split; auto. exists new. auto.
Qed.

Lemma quiet_bind {A B} (m : M A) (k : A → M B) :
  quiet m → (∀ a, quiet (k a)) → quiet (m ≫= k).
Proof.
  intros Hm Hk env w. apply quiet_at_bind; [apply Hm|]. intros. apply Hk.
Qed.

Lemma quiet_api c : is_privileged c = false → quiet (api c).
Proof.
  intros Hc env w. destruct (api_files c env w) as (H1 & H2 & H3).
  repeat split; auto. exists [c]. split; [done|]. constructor; auto.
Qed.

Lemma quiet_load_config : quiet load_config.
Proof.
  intros env w. unfold quiet_at, load_config.
  destruct (config_json w) eqn:Hc; simpl; repeat split; auto;
    exists []; rewrite app_nil_r; auto.
Qed.

Lemma quiet_get_admin_role_id gid : quiet (get_admin_role_id gid).
Proof.
  apply quiet_bind; [apply quiet_load_config | intros; apply quiet_ret].
Qed.

Lemma quiet_get_mod_role_id gid : quiet (get_mod_role_id gid).
Proof.
  apply quiet_bind; [apply quiet_load_config | intros; apply quiet_ret].
Qed.

Lemma quiet_is_admin i : quiet (is_admin i).
Proof.
  unfold is_admin. destruct (administrator (user i)); [apply quiet_ret|].
  apply quiet_bind; [apply quiet_get_admin_role_id|]. intros a.
  destruct (truthy a && py_in a _); [apply quiet_ret|].
  apply quiet_bind; [apply quiet_api; reflexivity | intros; apply quiet_ret].
Qed.

Lemma quiet_is_mod i : quiet (is_mod i).
Proof.
  unfold is_mod. destruct (administrator (user i)); [apply quiet_ret|].
  apply quiet_bind; [apply quiet_get_admin_role_id|]. intros a.
  apply quiet_bind; [apply quiet_get_mod_role_id|]. intros m.
  destruct (_ || _); [apply quiet_ret|].
  apply quiet_bind; [apply quiet_api; reflexivity | intros; apply quiet_ret].
Qed.

(** Behind a check, a callback runs only after the predicate returned True. *)
Lemma checked_run predicate i (callback : M unit) env w :
  checked predicate i callback env w =
  match predicate i env w with
  | (Ok true, w') => callback env w'
  | (Ok false, w') => (Raise CheckFailure, w')
  | (Raise e, w') => (Raise e, w')
  end.
Proof.
  unfold checked. rewrite bind_run.
  destruct (predicate i env w) as [[[|]|e] w']; reflexivity.
Qed.

Lemma checked_denied predicate i (callback : M unit) env w :
  quiet (predicate i) →
  (predicate i env w).1 ≠ Ok true →
  quiet_at (checked predicate i callback) env w
  ∧ (checked predicate i callback env w).1 ≠ Ok tt.
Proof.
  intros Hq Hden. specialize (Hq env w). unfold quiet_at in *.
  rewrite checked_run.
  destruct (predicate i env w) as [[[|]|e] w']; simpl in *;
    [congruence | |]; split; auto; discriminate.
Qed.

Lemma quiet_checked predicate i (callback : M unit) :
  quiet (predicate i) → quiet callback → quiet (checked predicate i callback).
Proof.
  intros Hp Hc. unfold checked. apply quiet_bind; [exact Hp|].
  intros [|]; [exact Hc | apply quiet_raise].
Qed.

(** ** Hierarchy protection *)

Lemma ban_body_rejects i member reason delete_days :
  role_ge (top_role member) (top_role (user i)) = true →
  ban_body i member reason delete_days =
  api (send_message i
         (Text "❌ You cannot ban someone with an equal or higher role.") true).
Proof. intros H. unfold ban_body. rewrite H. reflexivity. Qed.

Lemma kick_body_rejects i member reason :
  role_ge (top_role member) (top_role (user i)) = true →
  kick_body i member reason =
  api (send_message i
         (Text "❌ You cannot kick someone with an equal or higher role.") true).
Proof. intros H. unfold kick_body. rewrite H. reflexivity. Qed.

Lemma timeout_cmd_body_rejects i member minutes reason :
  role_ge (top_role member) (top_role (user i)) = true →
  timeout_cmd_body i member minutes reason =
  api (send_message i
         (Text "❌ You cannot timeout someone with an equal or higher role.") true).
Proof. intros H. unfold timeout_cmd_body. rewrite H. reflexivity. Qed.

Lemma role_cmd_body_rejects i member role action :
  role_ge role (top_role (user i)) = true →
  administrator (user i) = false →
  role_cmd_body i member role action =
  api (send_message i
         (Text "❌ You cannot assign a role equal to or higher than your own.") true).
Proof. intros H Ha. unfold role_cmd_body. rewrite H, Ha. reflexivity. Qed.

Lemma bind_assoc_run {A B C} (m : M A) (f : A → M B) (g : B → M C) env w :
  ((m ≫= f) ≫= g) env w = (m ≫= λ a, f a ≫= g) env w.
Proof.
  rewrite !bind_run. destruct (m env w) as [[a|e] w']; reflexivity.
Qed.

Lemma quiet_log g e : quiet (log g e).
Proof.
  unfold log. apply quiet_bind.
  - intros env w. repeat split. exists []. rewrite app_nil_r. auto.
  - intros c. destruct (truthy c); [|apply quiet_ret].
    destruct (get_channel g _); [apply quiet_api; reflexivity | apply quiet_ret].
Qed.

(** After a request, a quiet continuation only adds to the call log. *)
Lemma calls_after_api {B} (c : call) (k : unit → M B) env w :
  (∀ a, quiet (k a)) →
  ∃ rest, calls ((api c ≫= k) env w).2 = calls w ++ c :: rest.
Proof.
  intros Hk. rewrite bind_run. unfold api.
  destruct (platform env c) as [e|]; simpl.
  - exists []. reflexivity.
  - destruct (Hk tt env (with_calls w [c])) as (_ & _ & new & Hcalls & _).
    exists new. unfold with_calls in Hcalls. rewrite Hcalls. simpl.
    rewrite <- app_assoc. reflexivity.
Qed.

(** C3 as stated fails for role assignment: ada (top rank 5, no platform
    permission) changes the roles of elder (top rank 9), because the check
    of [role_cmd] looks at the rank of the role being assigned (1), not at
    the rank of the member it is assigned to. *)
Lemma role_cmd_reaches_higher_member :
  administrator Sample.ada = false
  ∧ role_ge (top_role Sample.elder) (top_role Sample.ada) = true
  ∧ (role_cmd (Sample.by_ Sample.ada) Sample.elder Sample.helper "add"
       Sample.env_ok Sample.world).1 = Ok tt
  ∧ head (calls (role_cmd (Sample.by_ Sample.ada) Sample.elder Sample.helper "add"
                   Sample.env_ok Sample.world).2)
    = Some (add_roles Sample.elder Sample.helper "Role granted by ada").
Proof. repeat split; vm_compute; reflexivity. Qed.

(** C3, amended. Once the permission check has passed: ban, kick and timeout
    answer a target whose top role is at or above the actor's with the
    rejection message and nothing else; role assignment does so when the
    role being assigned is at or above the actor's top role and the actor is
    not a platform administrator; a platform administrator is exempt, the
    role change is requested first, whatever the ranks. *)
Theorem hierarchy_protection (i : Interaction) (member : Member) (role : Role)
    (reason action : string) (delete_days minutes : Z) :
  (role_ge (top_role member) (top_role (user i)) = true →
     ban_body i member reason delete_days =
       api (send_message i
              (Text "❌ You cannot ban someone with an equal or higher role.") true)
     ∧ kick_body i member reason =
       api (send_message i
              (Text "❌ You cannot kick someone with an equal or higher role.") true)
     ∧ timeout_cmd_body i member minutes reason =
       api (send_message i
              (Text "❌ You cannot timeout someone with an equal or higher role.") true)
     ∧ quiet (ban_body i member reason delete_days)
     ∧ quiet (kick_body i member reason)
     ∧ quiet (timeout_cmd_body i member minutes reason))
  ∧ (role_ge role (top_role (user i)) = true →
     administrator (user i) = false →
     role_cmd_body i member role action =
       api (send_message i
              (Text "❌ You cannot assign a role equal to or higher than your own.") true)
     ∧ quiet (role_cmd_body i member role action))
  ∧ (administrator (user i) = true →
     ∀ env w, ∃ rest,
       calls (role_cmd_body i member role action env w).2 =
       calls w ++
         (if String.eqb action "add"
          then add_roles member role ("Role granted by " +:+ member_str (user i))
          else remove_roles member role ("Role removed by " +:+ member_str (user i)))
         :: rest).
Proof.
  split; [|split].
  - intros H.
    rewrite (ban_body_rejects _ _ _ _ H), (kick_body_rejects _ _ _ H),
      (timeout_cmd_body_rejects _ _ _ _ H).
    repeat split; apply quiet_api; reflexivity.
  - intros H Ha. rewrite (role_cmd_body_rejects _ _ _ _ H Ha).
    split; [reflexivity | apply quiet_api; reflexivity].
  - intros Ha env w. unfold role_cmd_body. rewrite Ha, andb_false_r.
    destruct (String.eqb action "add"); rewrite bind_assoc_run;
      apply calls_after_api; intros _;
      (apply quiet_bind; [apply quiet_ret|]); intros verb;
      (apply quiet_bind; [apply quiet_api; reflexivity|]); intros _;
      apply quiet_log.
Qed.

(** C7. A command whose permission check does not pass stops there: the
    callback, whatever it is, does not run, so neither document changes and
    no privileged request is issued; the invocation does not complete. A
    command whose hierarchy check rejects the target changes neither
    document and issues no privileged request either. *)
Theorem aborts_change_nothing (i : Interaction) (callback : M unit)
    (member : Member) (role : Role) (reason action : string)
    (delete_days minutes : Z) (env : Env) (w : World) :
  ((is_mod i env w).1 ≠ Ok true →
     quiet_at (checked is_mod i callback) env w
     ∧ (checked is_mod i callback env w).1 ≠ Ok tt)
  ∧ ((is_admin i env w).1 ≠ Ok true →
     quiet_at (checked is_admin i callback) env w
     ∧ (checked is_admin i callback env w).1 ≠ Ok tt)
  ∧ (role_ge (top_role member) (top_role (user i)) = true →
     quiet_at (ban i member reason delete_days) env w
     ∧ quiet_at (kick i member reason) env w
     ∧ quiet_at (timeout_cmd i member minutes reason) env w)
  ∧ (role_ge role (top_role (user i)) = true →
     administrator (user i) = false →
     quiet_at (role_cmd i member role action) env w).
Proof.
  split; [|split; [|split]].
  - intros H. apply checked_denied; [apply quiet_is_mod | assumption].
  - intros H. apply checked_denied; [apply quiet_is_admin | assumption].
  - intros H. split; [|split].
    + apply quiet_checked; [apply quiet_is_admin|].
      rewrite ban_body_rejects by assumption. apply quiet_api. reflexivity.
    + apply quiet_checked; [apply quiet_is_mod|].
      rewrite kick_body_rejects by assumption. apply quiet_api. reflexivity.
    + apply quiet_checked; [apply quiet_is_mod|].
      rewrite timeout_cmd_body_rejects by assumption. apply quiet_api. reflexivity.
  - intros H Ha. apply quiet_checked; [apply quiet_is_admin|].
    rewrite role_cmd_body_rejects by assumption. apply quiet_api. reflexivity.
Qed.

(** ** Passing a check *)

Lemma is_mod_pass i env w :
  (is_mod i env w).1 = Ok true → is_mod i env w = (Ok true, w).
Proof.
  unfold is_mod. destruct (administrator (user i)); [reflexivity|].
  unfold get_admin_role_id, get_mod_role_id.
  rewrite bind_run, get_role_id_run.
  destruct (config_json w) eqn:Hcfg; simpl; try discriminate;
    rewrite bind_run, get_role_id_run, Hcfg; simpl;
    repeat match goal with
           | |- context [if ?b then _ else _] => destruct b
           end;
    try reflexivity;
    rewrite bind_run; destruct (api _ env w) as [[[]|] ?]; discriminate.
Qed.

Lemma is_admin_pass i env w :
  (is_admin i env w).1 = Ok true → is_admin i env w = (Ok true, w).
Proof.
  unfold is_admin. destruct (administrator (user i)); [reflexivity|].
  unfold get_admin_role_id.
  rewrite bind_run, get_role_id_run.
  destruct (config_json w) eqn:Hcfg; simpl; try discriminate;
    repeat match goal with
           | |- context [if ?b then _ else _] => destruct b
           end;
    try reflexivity;
    rewrite bind_run; destruct (api _ env w) as [[[]|] ?]; discriminate.
Qed.

(** C10. [untimeout_cmd] has no hierarchy check: for an actor who passes
    the moderator check and any target member, whatever their top roles,
    the first request issued is the removal of the target's timeout. *)
Theorem untimeout_without_hierarchy_check (i : Interaction) (member : Member)
    (reason : string) (env : Env) (w : World) :
  (is_mod i env w).1 = Ok true →
  ∃ rest,
    calls (untimeout_cmd i member reason env w).2 =
    calls w ++ member_timeout member None (member_str (user i) +:+ ": " +:+ reason)
            :: rest.
Proof.
  intros Hpass. unfold untimeout_cmd. rewrite checked_run, (is_mod_pass _ _ _ Hpass).
  unfold untimeout_cmd_body. apply calls_after_api. intros _.
  apply quiet_bind; [apply quiet_api; reflexivity | intros _; apply quiet_log].
Qed.

(** ** The config store *)

Lemma load_config_ok env w d :
  load_config env w = (Ok d, w) ↔
  (config_json w = Missing ∧ d = ∅) ∨ config_json w = Json d.
Proof.
  unfold load_config. destruct (config_json w); split;
    intros H; try (injection H as <-); try discriminate; auto;
    destruct H as [[? ->]|?]; try discriminate; try congruence.
Qed.

Lemma get_insert_eq {V} (d : gmap string (gmap string V)) (g : string)
    (v : gmap string V) :
  get (<[g := v]> d) g ∅ = v.
Proof. unfold get. rewrite lookup_insert_eq. reflexivity. Qed.

Lemma set_mod_role_run i role env w d :
  load_config env w = (Ok d, w) →
  set_mod_role i role env w =
  (Ok tt,
   with_config w
     (<[str (guild_id (guild i)) :=
          <["mod_role_id" := Z.pos (role_id role)]>
            (get d (str (guild_id (guild i))) ∅)]> d)).
Proof.
  intros Hload. unfold set_mod_role. rewrite bind_run, Hload.
  unfold setdefault, get.
  destruct (d !! str (guild_id (guild i))) eqn:Hg; simpl.
  - reflexivity.
  - unfold save_config, with_config. rewrite insert_insert_eq. reflexivity.
Qed.

Lemma setmodrole_body_config i role env w d :
  load_config env w = (Ok d, w) →
  config_json (setmodrole_body i role env w).2 =
  Json (<[str (guild_id (guild i)) :=
            <["mod_role_id" := Z.pos (role_id role)]>
              (get d (str (guild_id (guild i))) ∅)]> d).
Proof.
  intros Hload. unfold setmodrole_body.
  rewrite bind_run, (set_mod_role_run _ _ _ _ _ Hload).
  destruct (api_files (send_message i
              (Text ("✅ **Moderator** role set to " +:+ role_mention role +:+ "."))
              true) env
              (with_config w
                 (<[str (guild_id (guild i)) :=
                      <["mod_role_id" := Z.pos (role_id role)]>
                        (get d (str (guild_id (guild i))) ∅)]> d)))
    as (Hc & _ & _).
  exact Hc.
Qed.

Lemma get_role_id_json (key : string) gid env w d :
  config_json w = Json d →
  ((load_config ≫= λ data, mret (get data (str gid) ∅ !! key)) env w).1 =
  Ok (d !! str gid ≫= (.!! key)).
Proof. intros H. rewrite get_role_id_run, H. reflexivity. Qed.

Lemma get_role_id_loaded (key : string) gid env w d :
  load_config env w = (Ok d, w) →
  ((load_config ≫= λ data, mret (get data (str gid) ∅ !! key)) env w).1 =
  Ok (d !! str gid ≫= (.!! key)).
Proof.
  intros H. rewrite bind_run, H, ret_run, get_lookup. reflexivity.
Qed.

(** C4. With a readable configuration: after [setmodrole] for a guild with
    role R, reading the guild's moderator role gives R; after a second
    [setmodrole] with R', it gives R'; and the guild's administrator role
    reads as it did before either call. *)
Theorem mod_role_set_then_get (i : Interaction) (role role' : Role)
    (env : Env) (w : World) (d : config_doc) :
  load_config env w = (Ok d, w) →
  let gid := guild_id (guild i) in
  let w1 := (setmodrole_body i role env w).2 in
  let w2 := (setmodrole_body i role' env w1).2 in
  (get_mod_role_id gid env w1).1 = Ok (Some (Z.pos (role_id role)))
  ∧ (get_mod_role_id gid env w2).1 = Ok (Some (Z.pos (role_id role')))
  ∧ (get_admin_role_id gid env w1).1 = (get_admin_role_id gid env w).1
  ∧ (get_admin_role_id gid env w2).1 = (get_admin_role_id gid env w).1.
Proof.
  intros Hload gid w1 w2.
  pose proof (setmodrole_body_config i role env w d Hload) as H1.
  fold w1 in H1.
  assert (load_config env w1 = (Ok (<[str gid :=
            <["mod_role_id" := Z.pos (role_id role)]> (get d (str gid) ∅)]> d), w1))
    as Hload1 by (apply load_config_ok; right; exact H1).
  pose proof (setmodrole_body_config i role' env w1 _ Hload1) as H2.
  fold w2 in H2.
  unfold get_mod_role_id, get_admin_role_id.
  rewrite (get_role_id_json _ _ _ _ _ H1), (get_role_id_json _ _ _ _ _ H1).
  rewrite (get_role_id_json _ _ _ _ _ H2), (get_role_id_json _ _ _ _ _ H2).
  rewrite (get_role_id_loaded _ _ _ _ _ Hload).
  subst gid. rewrite <- !get_lookup, !get_insert_eq.
  rewrite !lookup_insert_eq, !lookup_insert_ne by discriminate.
  repeat split; reflexivity.
Qed.

(** ** Clearing warnings *)

Lemma clear_warnings_run i member env w d :
  load_warnings env w = (Ok d, w) →
  clear_warnings i member env w =
  (Ok tt,
   with_warnings w
     match d !! str (guild_id (guild i)) with
     | Some entry =>
         <[str (guild_id (guild i)) := delete (str (member_id member)) entry]> d
     | None => d
     end).
Proof.
  intros Hload. unfold clear_warnings. rewrite bind_run, Hload. reflexivity.
Qed.

(** C5. With a readable ledger, whether the pair has no entry, an empty one
    or a populated one: [clearwarnings] completes its store update without
    error, listing the pair's warnings afterwards gives the empty sequence,
    and clearing once more completes without error and leaves the world
    exactly as it was. The rest of the handler, whatever the platform
    answers, keeps the ledger so written and the configuration. *)
Theorem clear_warnings_idempotent (i : Interaction) (member : Member)
    (env : Env) (w : World) (d : warnings_doc) :
  load_warnings env w = (Ok d, w) →
  let w1 := (clear_warnings i member env w).2 in
  (clear_warnings i member env w).1 = Ok tt
  ∧ list_warnings i member env w1 = (Ok [], w1)
  ∧ clear_warnings i member env w1 = (Ok tt, w1)
  ∧ warnings_json (clearwarnings_body i member env w).2 = warnings_json w1
  ∧ config_json (clearwarnings_body i member env w).2 = config_json w.
Proof.
  intros Hload w1. unfold w1, clearwarnings_body. rewrite bind_run.
  rewrite (clear_warnings_run _ _ _ _ _ Hload). simpl.
  set (g := str (guild_id (guild i))). set (u := str (member_id member)).
  split; [reflexivity|].
  split; [|split; [|
    match goal with
    | |- context [?k env (with_warnings w ?d1)] =>
        assert (quiet k) as Hq
          by (apply quiet_bind; [apply quiet_api; reflexivity|];
              intros _; apply quiet_log);
        destruct (Hq env (with_warnings w d1)) as (Hc & Hw & _);
        split; [exact Hw | exact Hc]
    end]].
  - rewrite list_warnings_run. simpl. fold g u. do 2 f_equal.
    unfold get. destruct (d !! g) as [e|] eqn:Hg.
    + rewrite lookup_insert_eq. simpl. rewrite lookup_delete_eq. reflexivity.
    + rewrite Hg. simpl. rewrite lookup_empty. reflexivity.
  - rewrite (clear_warnings_run _ _ _ _ _ (load_with_warnings _ _ _)).
    fold g u. unfold with_warnings. simpl. do 3 f_equal.
    destruct (d !! g) as [e|] eqn:Hg.
    + rewrite lookup_insert_eq, insert_insert_eq, delete_delete_eq. reflexivity.
    + rewrite Hg. reflexivity.
Qed.

(** ** Reading the stores *)

(** C6 as stated fails: with config.json holding text that is not JSON,
    [load_config] raises, and with warnings.json unreadable, [load_warnings]
    raises; neither returns the empty store. *)
Lemma load_raises_on_broken_files :
  (load_config Sample.env_ok Sample.broken).1 = Raise JSONDecodeError
  ∧ (load_warnings Sample.env_ok Sample.broken).1 = Raise PermissionError
  ∧ (get_mod_role_id 100 Sample.env_ok Sample.broken).1 = Raise JSONDecodeError.
Proof. repeat split. Qed.

(** C6, amended. When the backing file is absent, reading the config store
    or the warning ledger gives the empty store and no error (a guild then
    reads as unconfigured, a member as having no warnings); when the file
    is there but cannot be read, or holds text that is not JSON, the error
    goes to the caller. In no case does reading change the world. *)
Theorem load_outcomes (env : Env) (wrn : file warnings_doc) (cfg : file config_doc)
    (cs : list call) (i : Interaction) (member : Member) :
  (get_mod_role_id (guild_id (guild i)) env
     {| config_json := Missing; warnings_json := wrn; calls := cs |}).1 = Ok None
  ∧ (get_admin_role_id (guild_id (guild i)) env
       {| config_json := Missing; warnings_json := wrn; calls := cs |}).1 = Ok None
  ∧ (list_warnings i member env
       {| config_json := cfg; warnings_json := Missing; calls := cs |}).1 = Ok []
  ∧ (∀ f, load_config env {| config_json := f; warnings_json := wrn; calls := cs |} =
        (match f with
         | Missing => Ok ∅
         | Unreadable => Raise PermissionError
         | Corrupt => Raise JSONDecodeError
         | Json d => Ok d
         end,
         {| config_json := f; warnings_json := wrn; calls := cs |}))
  ∧ (∀ f, load_warnings env {| config_json := cfg; warnings_json := f; calls := cs |} =
          (match f with
           | Missing => Ok ∅
           | Unreadable => Raise PermissionError
           | Corrupt => Raise JSONDecodeError
           | Json d => Ok d
           end,
           {| config_json := cfg; warnings_json := f; calls := cs |})).
Proof.
  split; [reflexivity|]. split; [reflexivity|]. split; [reflexivity|].
  split; intros [| | |d]; reflexivity.
Qed.

(** ** Requests and their outcomes *)

Lemma api_run_ok c env w :
  platform env c = None → api c env w = (Ok tt, with_calls w [c]).
Proof. intros H. unfold api. rewrite H. reflexivity. Qed.

Lemma api_run_raise c e env w :
  platform env c = Some e → api c env w = (Raise e, with_calls w [c]).
Proof. intros H. unfold api. rewrite H. reflexivity. Qed.

Lemma with_calls_nil w : with_calls w [] = w.
Proof. destruct w. unfold with_calls. simpl. rewrite app_nil_r. reflexivity. Qed.

Lemma with_calls_app w a b : with_calls (with_calls w a) b = with_calls w (a ++ b).
Proof. unfold with_calls. simpl. rewrite app_assoc. reflexivity. Qed.

Lemma log_run g e env w :
  (∀ ch, platform env (channel_send ch e) = None) →
  log g e env w = (Ok tt, with_calls w (audit_calls env g e)).
Proof.
  intros Hok. unfold log, audit_calls. rewrite bind_run. unfold ask_log_channel.
  destruct (LOG_CHANNEL_ID env) as [c|]; simpl.
  - destruct (c =? 0)%Z; simpl.
    + rewrite with_calls_nil. reflexivity.
    + destruct (get_channel g c) as [ch|].
      * apply api_run_ok, Hok.
      * rewrite with_calls_nil. reflexivity.
  - rewrite with_calls_nil. reflexivity.
Qed.

Lemma except_Forbidden_swallows c env w :
  platform env c = Some Forbidden →
  except_Forbidden (api c) env w = (Ok tt, with_calls w [c]).
Proof.
  intros H. unfold except_Forbidden. rewrite (api_run_raise _ _ _ _ H).
  reflexivity.
Qed.

(** C8. Let the platform refuse direct messages to the member with
    Forbidden while the other requests succeed. Then ban and kick (for a
    target below the actor) and warn (with a readable ledger) still
    complete: after the refused notification the member is banned or
    kicked, the warning is written to the ledger, the acknowledgement is
    sent and the audit record goes to the log channel when one is set. *)
Theorem closed_dms_do_not_abort (i : Interaction) (member : Member)
    (reason now : string) (delete_days : Z) (env : Env) (w : World)
    (d : warnings_doc) :
  (∀ e, platform env (member_send member e) = Some Forbidden) →
  (∀ p, platform env (send_message i p false) = None) →
  (∀ ch e, platform env (channel_send ch e) = None) →
  (role_ge (top_role member) (top_role (user i)) = false →
   platform env (member_ban member (member_str (user i) +:+ ": " +:+ reason)
                   delete_days) = None →
   ∃ dm embed,
     ban_body i member reason delete_days env w =
     (Ok tt,
      with_calls w
        ([member_send member dm;
          member_ban member (member_str (user i) +:+ ": " +:+ reason) delete_days;
          send_message i (Emb embed) false]
         ++ audit_calls env (guild i) embed)))
  ∧ (role_ge (top_role member) (top_role (user i)) = false →
     platform env (member_kick member (member_str (user i) +:+ ": " +:+ reason))
       = None →
     ∃ dm embed,
       kick_body i member reason env w =
       (Ok tt,
        with_calls w
          ([member_send member dm;
            member_kick member (member_str (user i) +:+ ": " +:+ reason);
            send_message i (Emb embed) false]
           ++ audit_calls env (guild i) embed)))
  ∧ (load_warnings env w = (Ok d, w) →
     ∃ dm embed,
       warn_body i member reason now env w =
       (Ok tt,
        with_calls
          (with_warnings w
             (appended d (str (guild_id (guild i))) (str (member_id member))
                (record_of (user i) reason now)))
          ([member_send member dm; send_message i (Emb embed) false]
           ++ audit_calls env (guild i) embed))).
Proof.
  intros Hdm Hack Hlog. split; [|split].
  - intros Hrank Hban. do 2 eexists. unfold ban_body. rewrite Hrank.
    rewrite bind_run, (except_Forbidden_swallows _ _ _ (Hdm _)).
    rewrite bind_run, (api_run_ok _ _ _ Hban).
    rewrite bind_run, (api_run_ok _ _ _ (Hack _)).
    rewrite (log_run _ _ _ _ (λ ch, Hlog ch _)), !with_calls_app.
    reflexivity.
  - intros Hrank Hkick. do 2 eexists. unfold kick_body. rewrite Hrank.
    rewrite bind_run, (except_Forbidden_swallows _ _ _ (Hdm _)).
    rewrite bind_run, (api_run_ok _ _ _ Hkick).
    rewrite bind_run, (api_run_ok _ _ _ (Hack _)).
    rewrite (log_run _ _ _ _ (λ ch, Hlog ch _)), !with_calls_app.
    reflexivity.
  - intros Hload. do 2 eexists. unfold warn_body.
    rewrite bind_run, (add_warning_run _ _ _ _ _ _ _ Hload).
    rewrite bind_run, (except_Forbidden_swallows _ _ _ (Hdm _)).
    rewrite bind_run, (api_run_ok _ _ _ (Hack _)).
    rewrite (log_run _ _ _ _ (λ ch, Hlog ch _)), !with_calls_app.
    reflexivity.
Qed.

(** ** What a warning leaves alone *)

Lemma quiet_except_Forbidden (body : M unit) :
  quiet body → quiet (except_Forbidden body).
Proof.
  intros Hb env w. specialize (Hb env w). unfold quiet_at, except_Forbidden in *.
  destruct (body env w) as [[[]|[]] w']; exact Hb.
Qed.

(** C9. With a readable ledger, the whole [warn] handler, whatever the
    platform answers, leaves config.json as it was and writes a ledger in
    which the (guild, member) entry has exactly one more record at its end,
    while the entry under every other (guild, user) key is what it was. *)
Theorem warn_touches_one_entry (i : Interaction) (member : Member)
    (reason now : string) (env : Env) (w : World) (d : warnings_doc) :
  load_warnings env w = (Ok d, w) →
  let g := str (guild_id (guild i)) in
  let u := str (member_id member) in
  let w' := (warn_body i member reason now env w).2 in
  ∃ d',
    warnings_json w' = Json d'
    ∧ config_json w' = config_json w
    ∧ get (get d' g ∅) u [] = get (get d g ∅) u [] ++ [record_of (user i) reason now]
    ∧ (∀ g' u', (g', u') ≠ (g, u) → entry_at d' g' u' = entry_at d g' u')
    ∧ (∀ gid uid, (gid, uid) ≠ (guild_id (guild i), member_id member) →
         entry_at d' (str gid) (str uid) = entry_at d (str gid) (str uid)).
Proof.
  intros Hload g u w'.
  exists (appended d g u (record_of (user i) reason now)).
  assert (warnings_json w' = Json (appended d g u (record_of (user i) reason now))
          ∧ config_json w' = config_json w) as [Hw Hc].
  { unfold w', warn_body. rewrite bind_run, (add_warning_run _ _ _ _ _ _ _ Hload).
    fold g u.
    match goal with
    | |- context [?k env (with_warnings w ?d1)] =>
        assert (quiet k) as Hq
    end.
    { apply quiet_bind.
      - apply quiet_except_Forbidden, quiet_api. reflexivity.
      - intros _. apply quiet_bind; [apply quiet_api; reflexivity|].
        intros _. apply quiet_log. }
    destruct (Hq env (with_warnings w
                (appended d g u (record_of (user i) reason now))))
      as (Hc & Hw & _).
    split; [exact Hw | exact Hc]. }
  split; [exact Hw|]. split; [exact Hc|]. split; [apply appended_here|].
  split.
  - intros g' u' Hne. apply appended_elsewhere, Hne.
  - intros gid uid Hne. apply appended_elsewhere.
    intros [= Hg Hu]. apply Hne. unfold g, u, str in *.
    apply (inj pretty) in Hg, Hu. congruence.
Qed.

(** * The properties at work on the sample guild *)

Lemma warnings_after_adds_sample :
  list_warnings (Sample.by_ Sample.mod1) Sample.newcomer Sample.env_ok Sample.world
    = (Ok [], Sample.world)
  ∧ ∃ w' recs,
      add_warnings Sample.server Sample.newcomer Sample.three
        Sample.env_ok Sample.world = (Ok [1; 2; 3], w')
      ∧ list_warnings (Sample.by_ Sample.mod1) Sample.newcomer Sample.env_ok w'
        = (Ok recs, w')
      ∧ length recs = 3
      ∧ reason <$> recs = ["spam"; "flood"; "spam again"]
      ∧ recs = (λ q, record_of q.1.1 q.1.2 q.2) <$> Sample.three.
Proof.
  split; [vm_compute; reflexivity|].
  apply (warnings_after_adds Sample.server Sample.newcomer Sample.mod1
           Sample.three Sample.env_ok Sample.world).
  vm_compute; reflexivity.
Defined.

Lemma hierarchy_protection_sample :
  role_ge (top_role Sample.elder) (top_role Sample.ada) = true
  ∧ quiet (ban_body (Sample.by_ Sample.ada) Sample.elder "rude" 0).
Proof.
  split; [reflexivity|].
  destruct (hierarchy_protection (Sample.by_ Sample.ada) Sample.elder
              Sample.founders "rude" "add" 0 10) as (H & _ & _).
  destruct (H eq_refl) as (_ & _ & _ & Hq & _). exact Hq.
Defined.

Lemma mod_role_set_then_get_sample :
  load_config Sample.env_ok Sample.world = (Ok Sample.config, Sample.world)
  ∧ let w1 := (setmodrole_body (Sample.by_ Sample.ada) Sample.helper
                 Sample.env_ok Sample.world).2 in
    let w2 := (setmodrole_body (Sample.by_ Sample.ada) Sample.founders
                 Sample.env_ok w1).2 in
    (get_mod_role_id 100 Sample.env_ok w1).1 = Ok (Some 6%Z)
    ∧ (get_mod_role_id 100 Sample.env_ok w2).1 = Ok (Some 9%Z)
    ∧ (get_admin_role_id 100 Sample.env_ok w1).1
      = (get_admin_role_id 100 Sample.env_ok Sample.world).1
    ∧ (get_admin_role_id 100 Sample.env_ok w2).1
      = (get_admin_role_id 100 Sample.env_ok Sample.world).1.
Proof.
  split; [reflexivity|].
  apply (mod_role_set_then_get (Sample.by_ Sample.ada) Sample.helper
           Sample.founders Sample.env_ok Sample.world Sample.config).
  reflexivity.
Defined.

Lemma clear_warnings_idempotent_sample :
  load_warnings Sample.env_ok Sample.world = (Ok Sample.ledger, Sample.world)
  ∧ let w1 := (clear_warnings (Sample.by_ Sample.ada) Sample.elder
                 Sample.env_ok Sample.world).2 in
    (clear_warnings (Sample.by_ Sample.ada) Sample.elder
       Sample.env_ok Sample.world).1 = Ok tt
    ∧ list_warnings (Sample.by_ Sample.ada) Sample.elder Sample.env_ok w1
      = (Ok [], w1)
    ∧ clear_warnings (Sample.by_ Sample.ada) Sample.elder Sample.env_ok w1
      = (Ok tt, w1)
    ∧ warnings_json (clearwarnings_body (Sample.by_ Sample.ada) Sample.elder
                       Sample.env_ok Sample.world).2 = warnings_json w1
    ∧ config_json (clearwarnings_body (Sample.by_ Sample.ada) Sample.elder
                     Sample.env_ok Sample.world).2 = Json Sample.config.
Proof.
  split; [reflexivity|].
  apply (clear_warnings_idempotent (Sample.by_ Sample.ada) Sample.elder
           Sample.env_ok Sample.world Sample.ledger).
  reflexivity.
Defined.

Lemma aborts_change_nothing_sample :
  (is_mod (Sample.by_ Sample.newcomer) Sample.env_ok Sample.world).1 = Ok false
  ∧ quiet_at (warn (Sample.by_ Sample.newcomer) Sample.elder "grudge"
                "2024-03-01T10:00:00")
      Sample.env_ok Sample.world.
Proof.
  split; [vm_compute; reflexivity|].
  destruct (aborts_change_nothing (Sample.by_ Sample.newcomer)
              (warn_body (Sample.by_ Sample.newcomer) Sample.elder "grudge"
                 "2024-03-01T10:00:00")
              Sample.elder Sample.helper "grudge" "add" 0 10
              Sample.env_ok Sample.world) as (H & _).
  apply H. vm_compute. discriminate.
Defined.

Lemma closed_dms_do_not_abort_sample :
  ∃ dm embed,
    ban_body (Sample.by_ Sample.ada) Sample.newcomer "spam" 0
      Sample.env_dm_closed Sample.world =
    (Ok tt,
     with_calls Sample.world
       ([member_send Sample.newcomer dm;
         member_ban Sample.newcomer "ada: spam" 0;
         send_message (Sample.by_ Sample.ada) (Emb embed) false]
        ++ [channel_send 900 embed])).
Proof.
  destruct (closed_dms_do_not_abort (Sample.by_ Sample.ada) Sample.newcomer
              "spam" "2024-03-01T10:00:00" 0 Sample.env_dm_closed Sample.world
              Sample.ledger (λ _, eq_refl) (λ _, eq_refl) (λ _ _, eq_refl))
    as (H & _ & _).
  apply H; reflexivity.
Defined.

Lemma warn_touches_one_entry_sample :
  load_warnings Sample.env_ok Sample.world = (Ok Sample.ledger, Sample.world)
  ∧ ∃ d',
      warnings_json (warn_body (Sample.by_ Sample.mod1) Sample.newcomer "spam"
                       "2024-03-01T10:00:00" Sample.env_ok Sample.world).2
        = Json d'
      ∧ config_json (warn_body (Sample.by_ Sample.mod1) Sample.newcomer "spam"
                       "2024-03-01T10:00:00" Sample.env_ok Sample.world).2
        = Json Sample.config
      ∧ get (get d' "100" ∅) "55" []
        = [record_of Sample.mod1 "spam" "2024-03-01T10:00:00"]
      ∧ (∀ g' u', (g', u') ≠ ("100", "55") →
           entry_at d' g' u' = entry_at Sample.ledger g' u')
      ∧ (∀ gid uid, (gid, uid) ≠ (100%positive, 55%positive) →
           entry_at d' (str gid) (str uid) = entry_at Sample.ledger (str gid) (str uid)).
Proof.
  split; [reflexivity|].
  apply (warn_touches_one_entry (Sample.by_ Sample.mod1) Sample.newcomer "spam"
           "2024-03-01T10:00:00" Sample.env_ok Sample.world Sample.ledger).
  reflexivity.
Defined.

Lemma untimeout_without_hierarchy_check_sample :
  (is_mod (Sample.by_ Sample.mod1) Sample.env_ok Sample.world).1 = Ok true
  ∧ role_ge (top_role Sample.elder) (top_role Sample.mod1) = true
  ∧ ∃ rest,
      calls (untimeout_cmd (Sample.by_ Sample.mod1) Sample.elder "appeal"
               Sample.env_ok Sample.world).2
      = calls Sample.world
        ++ member_timeout Sample.elder None "mod#1: appeal" :: rest.
Proof.
  split; [vm_compute; reflexivity|]. split; [reflexivity|].
  apply (untimeout_without_hierarchy_check (Sample.by_ Sample.mod1) Sample.elder
           "appeal" Sample.env_ok Sample.world).
  vm_compute; reflexivity.
Defined.

(** A guild without configuration: no moderator role is read, and a member
    without platform permission is denied. *)
Example unconfigured_guild :
  (get_mod_role_id 100 Sample.env_ok Sample.fresh).1 = Ok None
  ∧ is_mod (Sample.by_ Sample.newcomer) Sample.env_ok Sample.fresh =
    (Ok false,
     with_calls Sample.fresh
       [send_message (Sample.by_ Sample.newcomer)
          (Text "❌ You need a **Moderator** or **Admin** role to use this command.")
          true]).
Proof. split; vm_compute; reflexivity. Qed.

(** Rank 5 against rank 9 is rejected, rank 5 against rank 4 goes through. *)
Example ban_by_rank :
  calls (ban (Sample.by_ Sample.ada) Sample.elder "rude" 0
           Sample.env_ok Sample.world).2 =
    [send_message (Sample.by_ Sample.ada)
       (Text "❌ You cannot ban someone with an equal or higher role.") true]
  ∧ is_privileged <$> calls (ban (Sample.by_ Sample.ada) Sample.mod1 "rude" 0
                               Sample.env_ok Sample.world).2 =
    [false; true; false; false].
Proof. split; vm_compute; reflexivity. Qed.

(** A platform administrator hands out a role above their own top role. *)
Example administrator_assigns_any_role :
  role_ge Sample.founders (top_role Sample.root) = true
  ∧ head (calls (role_cmd (Sample.by_ Sample.root) Sample.newcomer Sample.founders
                   "add" Sample.env_ok Sample.fresh).2)
    = Some (add_roles Sample.newcomer Sample.founders "Role granted by root").
Proof. split; vm_compute; reflexivity. Qed.

Example label_of_keyword : label "total_warnings" = "Total Warnings".
Proof. reflexivity. Qed.

(** * Further properties *)

(** ** Storing role ids *)

Lemma role_at_with_role (d : config_doc) (g key : string) (rid : Z)
    (g' key' : string) :
  role_at (with_role d g key rid) g' key' =
  if decide (g' = g ∧ key' = key) then Some rid else role_at d g' key'.
Proof.
  unfold role_at, with_role, get.
  destruct (decide (g' = g)) as [->|Hg].
  - rewrite lookup_insert_eq. simpl.
    destruct (decide (key' = key)) as [->|Hk].
    + rewrite lookup_insert_eq, decide_True by done. reflexivity.
    + rewrite lookup_insert_ne by done.
      rewrite decide_False by (intros [_ ?]; done).
      destruct (d !! g); simpl; [done | apply lookup_empty].
  - rewrite lookup_insert_ne by done.
    rewrite decide_False by (intros [? _]; done). reflexivity.
Qed.

Lemma set_admin_role_run i role env w d :
  load_config env w = (Ok d, w) →
  set_admin_role i role env w =
  (Ok tt,
   with_config w
     (with_role d (str (guild_id (guild i))) "admin_role_id" (Z.pos (role_id role)))).
Proof.
  intros Hload. unfold set_admin_role. rewrite bind_run, Hload.
  unfold setdefault, with_role, get.
  destruct (d !! str (guild_id (guild i))) eqn:Hg; simpl.
  - reflexivity.
  - unfold save_config, with_config. rewrite insert_insert_eq. reflexivity.
Qed.

Lemma setadminrole_body_config i role env w d :
  load_config env w = (Ok d, w) →
  config_json (setadminrole_body i role env w).2 =
    Json (with_role d (str (guild_id (guild i))) "admin_role_id"
            (Z.pos (role_id role)))
  ∧ warnings_json (setadminrole_body i role env w).2 = warnings_json w.
Proof.
  intros Hload. unfold setadminrole_body.
  rewrite bind_run, (set_admin_role_run _ _ _ _ _ Hload).
  match goal with
  | |- context [api ?c env ?w0] =>
      destruct (api_files c env w0) as (Hc & Hw & _)
  end.
  split; [exact Hc | exact Hw].
Qed.

Lemma setmodrole_body_files i role env w d :
  load_config env w = (Ok d, w) →
  config_json (setmodrole_body i role env w).2 =
    Json (with_role d (str (guild_id (guild i))) "mod_role_id"
            (Z.pos (role_id role)))
  ∧ warnings_json (setmodrole_body i role env w).2 = warnings_json w.
Proof.
  intros Hload. unfold setmodrole_body.
  rewrite bind_run, (set_mod_role_run _ _ _ _ _ Hload).
  match goal with
  | |- context [api ?c env ?w0] =>
      destruct (api_files c env w0) as (Hc & Hw & _)
  end.
  split; [exact Hc | exact Hw].
Qed.

Lemma load_config_json env w d :
  config_json w = Json d → load_config env w = (Ok d, w).
Proof. intros H. apply load_config_ok. right. exact H. Qed.

Lemma get_mod_role_id_json gid env w d :
  config_json w = Json d →
  (get_mod_role_id gid env w).1 = Ok (role_at d (str gid) "mod_role_id").
Proof. apply get_role_id_json. Qed.

Lemma get_admin_role_id_json gid env w d :
  config_json w = Json d →
  (get_admin_role_id gid env w).1 = Ok (role_at d (str gid) "admin_role_id").
Proof. apply get_role_id_json. Qed.

Lemma get_mod_role_id_loaded gid env w d :
  load_config env w = (Ok d, w) →
  (get_mod_role_id gid env w).1 = Ok (role_at d (str gid) "mod_role_id").
Proof. apply get_role_id_loaded. Qed.

Lemma get_admin_role_id_loaded gid env w d :
  load_config env w = (Ok d, w) →
  (get_admin_role_id gid env w).1 = Ok (role_at d (str gid) "admin_role_id").
Proof. apply get_role_id_loaded. Qed.

Lemma str_inj (a b : positive) : str a = str b → a = b.
Proof. unfold str. apply (inj pretty). Qed.

(** X1. With a readable configuration: after [setadminrole] for a guild with
    role R, reading the guild's admin role gives R; after a second
    [setadminrole] with R', it gives R'; and the guild's moderator role
    reads as it did before either call. *)
Theorem admin_role_set_then_get (i : Interaction) (role role' : Role)
    (env : Env) (w : World) (d : config_doc) :
  load_config env w = (Ok d, w) →
  let gid := guild_id (guild i) in
  let w1 := (setadminrole_body i role env w).2 in
  let w2 := (setadminrole_body i role' env w1).2 in
  (get_admin_role_id gid env w1).1 = Ok (Some (Z.pos (role_id role)))
  ∧ (get_admin_role_id gid env w2).1 = Ok (Some (Z.pos (role_id role')))
  ∧ (get_mod_role_id gid env w1).1 = (get_mod_role_id gid env w).1
  ∧ (get_mod_role_id gid env w2).1 = (get_mod_role_id gid env w).1.
Proof.
  intros Hload gid w1 w2.
  destruct (setadminrole_body_config i role env w d Hload) as [H1 _].
  fold w1 in H1.
  destruct (setadminrole_body_config i role' env w1 _ (load_config_json _ _ _ H1))
    as [H2 _].
  fold w2 in H2.
  rewrite !(get_admin_role_id_json _ _ _ _ H1), !(get_mod_role_id_json _ _ _ _ H1).
  rewrite !(get_admin_role_id_json _ _ _ _ H2), !(get_mod_role_id_json _ _ _ _ H2).
  rewrite (get_mod_role_id_loaded _ _ _ _ Hload).
  rewrite !role_at_with_role.
  rewrite !decide_True by done.
  rewrite !decide_False by (intros [_ ?]; discriminate).
  repeat split; reflexivity.
Qed.

(** X2. With a readable configuration, [setmodrole] and [setadminrole] for
    one guild leave both role ids of every other guild, and the warning
    ledger, as they were. *)
Theorem role_setting_frame (i : Interaction) (role : Role) (other : positive)
    (env : Env) (w : World) (d : config_doc) :
  load_config env w = (Ok d, w) →
  other ≠ guild_id (guild i) →
  let wm := (setmodrole_body i role env w).2 in
  let wa := (setadminrole_body i role env w).2 in
  (get_mod_role_id other env wm).1 = (get_mod_role_id other env w).1
  ∧ (get_admin_role_id other env wm).1 = (get_admin_role_id other env w).1
  ∧ (get_mod_role_id other env wa).1 = (get_mod_role_id other env w).1
  ∧ (get_admin_role_id other env wa).1 = (get_admin_role_id other env w).1
  ∧ warnings_json wm = warnings_json w
  ∧ warnings_json wa = warnings_json w.
Proof.
  intros Hload Hne wm wa.
  destruct (setmodrole_body_files i role env w d Hload) as [Hm Hmw].
  destruct (setadminrole_body_config i role env w d Hload) as [Ha Haw].
  fold wm in Hm, Hmw. fold wa in Ha, Haw.
  rewrite (get_mod_role_id_json _ _ _ _ Hm), (get_admin_role_id_json _ _ _ _ Hm).
  rewrite (get_mod_role_id_json _ _ _ _ Ha), (get_admin_role_id_json _ _ _ _ Ha).
  rewrite (get_mod_role_id_loaded _ _ _ _ Hload),
    (get_admin_role_id_loaded _ _ _ _ Hload).
  rewrite !role_at_with_role.
  rewrite !decide_False by (intros [Hs _]; apply Hne, str_inj, Hs).
  repeat split; assumption.
Qed.

Lemma with_role_commute (d : config_doc) (g k1 k2 : string) (v1 v2 : Z) :
  k1 ≠ k2 →
  with_role (with_role d g k1 v1) g k2 v2 = with_role (with_role d g k2 v2) g k1 v1.
Proof.
  intros Hk. unfold with_role. rewrite !get_insert_eq, !insert_insert_eq.
  f_equal. apply insert_insert_ne. done.
Qed.

(** X3. With a readable configuration, setting the moderator role and the
    admin role of a guild can be done in either order: config.json ends up
    the same, and both ids read back. *)
Theorem role_settings_commute (i : Interaction) (rm ra : Role)
    (env : Env) (w : World) (d : config_doc) :
  load_config env w = (Ok d, w) →
  let gid := guild_id (guild i) in
  let w1 := (setadminrole_body i ra env (setmodrole_body i rm env w).2).2 in
  let w2 := (setmodrole_body i rm env (setadminrole_body i ra env w).2).2 in
  config_json w1 = config_json w2
  ∧ (get_mod_role_id gid env w1).1 = Ok (Some (Z.pos (role_id rm)))
  ∧ (get_admin_role_id gid env w1).1 = Ok (Some (Z.pos (role_id ra))).
Proof.
  intros Hload gid w1 w2.
  destruct (setmodrole_body_files i rm env w d Hload) as [Hm _].
  destruct (setadminrole_body_config i ra env w d Hload) as [Ha _].
  destruct (setadminrole_body_config i ra env _ _ (load_config_json _ _ _ Hm))
    as [H1 _].
  destruct (setmodrole_body_files i rm env _ _ (load_config_json _ _ _ Ha))
    as [H2 _].
  fold w1 in H1. fold w2 in H2.
  rewrite (get_mod_role_id_json _ _ _ _ H1), (get_admin_role_id_json _ _ _ _ H1).
  rewrite !role_at_with_role, H1, H2.
  rewrite decide_False by (intros [_ ?]; discriminate).
  rewrite !decide_True by done.
  split; [|split; reflexivity].
  f_equal. apply with_role_commute. discriminate.
Qed.

(** ** Role ids and the permission checks *)

Lemma configured_loaded env w d gid key :
  load_config env w = (Ok d, w) →
  configured (config_json w) gid key = role_at d (str gid) key.
Proof.
  intros H. apply load_config_ok in H as [[Hm ->]|Hj].
  - rewrite Hm. unfold role_at. rewrite lookup_empty. reflexivity.
  - rewrite Hj. reflexivity.
Qed.

Lemma holds_role_of (u : Member) (r : Role) :
  r ∈ roles u → holds_role u (Z.pos (role_id r)).
Proof. intros H. exists r. auto. Qed.

(** X4. With a readable configuration, once [setadminrole] has stored role R
    for a guild, every member of that guild who holds R passes the admin
    check and the moderator check. *)
Theorem setadminrole_grants (i i' : Interaction) (role : Role)
    (env : Env) (w : World) (d : config_doc) :
  load_config env w = (Ok d, w) →
  guild_id (guild i') = guild_id (guild i) →
  role ∈ roles (user i') →
  let w1 := (setadminrole_body i role env w).2 in
  (is_admin i' env w1).1 = Ok true ∧ (is_mod i' env w1).1 = Ok true.
Proof.
  intros Hload Hg Hr w1.
  destruct (setadminrole_body_config i role env w d Hload) as [H1 _].
  fold w1 in H1.
  assert (holds_configured "admin_role_id" i' w1) as Hc.
  { exists (Z.pos (role_id role)). split; [|apply holds_role_of, Hr].
    rewrite H1. simpl. fold (role_at (with_role d (str (guild_id (guild i)))
      "admin_role_id" (Z.pos (role_id role))) (str (guild_id (guild i')))
      "admin_role_id").
    rewrite role_at_with_role, Hg, decide_True by done. reflexivity. }
  split.
  - apply is_admin_true_iff. right. exact Hc.
  - apply is_mod_true_iff. right. left. exact Hc.
Qed.

(** X5. With a readable configuration, once [setmodrole] has stored role R
    for a guild, every member of that guild who holds R passes the
    moderator check; and for every member of every guild the admin check
    passes after the call exactly when it passed before. *)
Theorem setmodrole_grants_moderation_only (i i' : Interaction) (role : Role)
    (env : Env) (w : World) (d : config_doc) :
  load_config env w = (Ok d, w) →
  let w1 := (setmodrole_body i role env w).2 in
  (guild_id (guild i') = guild_id (guild i) →
   role ∈ roles (user i') →
   (is_mod i' env w1).1 = Ok true)
  ∧ ((is_admin i' env w1).1 = Ok true ↔ (is_admin i' env w).1 = Ok true).
Proof.
  intros Hload w1.
  destruct (setmodrole_body_files i role env w d Hload) as [H1 _].
  fold w1 in H1.
  assert (∀ key, configured (config_json w1) (guild_id (guild i')) key =
                 role_at (with_role d (str (guild_id (guild i))) "mod_role_id"
                            (Z.pos (role_id role)))
                   (str (guild_id (guild i'))) key) as Hcfg.
  { intros key. rewrite H1. reflexivity. }
  split.
  - intros Hg Hr. apply is_mod_true_iff. right. right.
    exists (Z.pos (role_id role)). split; [|apply holds_role_of, Hr].
    rewrite Hcfg, role_at_with_role, Hg, decide_True by done. reflexivity.
  - rewrite !is_admin_true_iff. unfold holds_configured.
    rewrite Hcfg, role_at_with_role.
    rewrite decide_False by (intros [_ ?]; discriminate).
    rewrite (configured_loaded _ _ _ _ _ Hload). reflexivity.
Qed.

Lemma is_mod_denied i env w :
  (is_mod i env w).1 = Ok false →
  (is_mod i env w).2 =
  with_calls w
    [send_message i
       (Text "❌ You need a **Moderator** or **Admin** role to use this command.")
       true].
Proof.
  unfold is_mod. destruct (administrator (user i)); [discriminate|].
  unfold get_admin_role_id, get_mod_role_id.
  rewrite bind_run, get_role_id_run.
  destruct (config_json w) eqn:Hcfg; simpl; try discriminate;
    rewrite bind_run, get_role_id_run, Hcfg; simpl;
    repeat match goal with
           | |- context [if ?b then _ else _] => destruct b
           end;
    try discriminate;
    rewrite bind_run; unfold api;
    match goal with
    | |- context [platform env ?c] => destruct (platform env c)
    end; simpl; try discriminate; reflexivity.
Qed.

Lemma is_admin_denied i env w :
  (is_admin i env w).1 = Ok false →
  (is_admin i env w).2 =
  with_calls w
    [send_message i (Text "❌ You need an **Admin** role to use this command.")
       true].
Proof.
  unfold is_admin. destruct (administrator (user i)); [discriminate|].
  unfold get_admin_role_id.
  rewrite bind_run, get_role_id_run.
  destruct (config_json w) eqn:Hcfg; simpl; try discriminate;
    repeat match goal with
           | |- context [if ?b then _ else _] => destruct b
           end;
    try discriminate;
    rewrite bind_run; unfold api;
    match goal with
    | |- context [platform env ?c] => destruct (platform env c)
    end; simpl; try discriminate; reflexivity.
Qed.

(** X6. What a permission check does besides answering: when it returns
    True the world is untouched and nothing was sent; when it returns False
    the only thing that happened is one ephemeral message to the invoker;
    in every case both documents are as they were. *)
Theorem permission_check_effects (i : Interaction) (env : Env) (w : World) :
  ((is_mod i env w).1 = Ok true → (is_mod i env w).2 = w)
  ∧ ((is_admin i env w).1 = Ok true → (is_admin i env w).2 = w)
  ∧ ((is_mod i env w).1 = Ok false →
     (is_mod i env w).2 =
     with_calls w
       [send_message i
          (Text "❌ You need a **Moderator** or **Admin** role to use this command.")
          true])
  ∧ ((is_admin i env w).1 = Ok false →
     (is_admin i env w).2 =
     with_calls w
       [send_message i (Text "❌ You need an **Admin** role to use this command.")
          true])
  ∧ quiet_at (is_mod i) env w
  ∧ quiet_at (is_admin i) env w.
Proof.
  split; [|split; [|split; [|split; [|split]]]].
  - intros H. rewrite (is_mod_pass _ _ _ H). reflexivity.
  - intros H. rewrite (is_admin_pass _ _ _ H). reflexivity.
  - apply is_mod_denied.
  - apply is_admin_denied.
  - apply quiet_is_mod.
  - apply quiet_is_admin.
Qed.

(** X7. A platform administrator passes both checks without the
    configuration being read, so also when config.json is broken. Anyone
    else, while config.json is there but does not parse or cannot be read,
    gets the read error from every gated command: the callback does not
    run, nothing is sent and nothing changes. *)
Theorem checks_on_broken_config (i : Interaction) (callback : M unit)
    (env : Env) (w : World) :
  (administrator (user i) = true →
   is_mod i env w = (Ok true, w) ∧ is_admin i env w = (Ok true, w))
  ∧ (administrator (user i) = false →
     config_json w = Corrupt →
     checked is_mod i callback env w = (Raise JSONDecodeError, w)
     ∧ checked is_admin i callback env w = (Raise JSONDecodeError, w))
  ∧ (administrator (user i) = false →
     config_json w = Unreadable →
     checked is_mod i callback env w = (Raise PermissionError, w)
     ∧ checked is_admin i callback env w = (Raise PermissionError, w)).
Proof.
  split; [|split].
  - intros Ha. unfold is_mod, is_admin. rewrite Ha. split; reflexivity.
  - intros Ha Hc.
    split; rewrite checked_run; unfold is_mod, is_admin; rewrite Ha;
      unfold get_admin_role_id; rewrite bind_run, get_role_id_run, Hc;
      reflexivity.
  - intros Ha Hc.
    split; rewrite checked_run; unfold is_mod, is_admin; rewrite Ha;
      unfold get_admin_role_id; rewrite bind_run, get_role_id_run, Hc;
      reflexivity.
Qed.

(** X8. When the check of a command passes, the command is its callback run
    in the same world: nothing was sent or changed in between. *)
Theorem passed_check_runs_callback (i : Interaction) (callback : M unit)
    (env : Env) (w : World) :
  ((is_mod i env w).1 = Ok true →
   checked is_mod i callback env w = callback env w)
  ∧ ((is_admin i env w).1 = Ok true →
     checked is_admin i callback env w = callback env w).
Proof.
  split; intros H; rewrite checked_run.
  - rewrite (is_mod_pass _ _ _ H). reflexivity.
  - rewrite (is_admin_pass _ _ _ H). reflexivity.
Qed.

(** ** More on the warning ledger *)

Lemma list_warnings_loaded i member env w recs :
  list_warnings i member env w = (Ok recs, w) →
  ∃ d, load_warnings env w = (Ok d, w)
       ∧ get (get d (str (guild_id (guild i))) ∅) (str (member_id member)) [] = recs.
Proof.
  rewrite list_warnings_run. unfold load_warnings.
  destruct (warnings_json w) as [| | |d] eqn:Hw; try discriminate.
  - intros [= <-]. exists ∅. split; [done|].
    unfold get. rewrite lookup_empty. simpl. rewrite lookup_empty. reflexivity.
  - intros [= <-]. exists d. split; reflexivity.
Qed.

Lemma list_warnings_of_loaded i member env w d :
  load_warnings env w = (Ok d, w) →
  list_warnings i member env w =
  (Ok (get (get d (str (guild_id (guild i))) ∅) (str (member_id member)) []), w).
Proof.
  intros H. unfold list_warnings. rewrite bind_run, H. reflexivity.
Qed.

(** X9. Warnings accumulate. If listing a member's warnings gives some
    records, then after N more warnings for that member the calls have
    returned the counts that follow the number of those records, and
    listing gives the old records, in their order, followed by the N new
    ones in call order. *)
Theorem warnings_accumulate (g : Guild) (member viewer : Member)
    (reqs : list (Member * string * string)) (before : list WarningRecord)
    (env : Env) (w : World) :
  list_warnings {| user := viewer; guild := g |} member env w = (Ok before, w) →
  ∃ w',
    add_warnings g member reqs env w =
      (Ok (seq (S (length before)) (length reqs)), w')
    ∧ list_warnings {| user := viewer; guild := g |} member env w' =
      (Ok (before ++ ((λ q, record_of q.1.1 q.1.2 q.2) <$> reqs)), w').
Proof.
  intros Hbefore.
  destruct (list_warnings_loaded _ _ _ _ _ Hbefore) as (d & Hload & Hd).
  simpl in Hd.
  destruct (add_warnings_run g member reqs env w d Hload)
    as (w' & d' & Hrun & Hload' & Hrec).
  rewrite Hd in Hrun, Hrec.
  exists w'. split; [exact Hrun|].
  rewrite (list_warnings_of_loaded _ _ _ _ _ Hload'). simpl.
  rewrite Hrec. reflexivity.
Qed.

Lemma clearwarnings_body_files i member env w d :
  load_warnings env w = (Ok d, w) →
  warnings_json (clearwarnings_body i member env w).2 =
    Json (cleared d (str (guild_id (guild i))) (str (member_id member)))
  ∧ config_json (clearwarnings_body i member env w).2 = config_json w.
Proof.
  intros Hload. unfold clearwarnings_body.
  rewrite bind_run, (clear_warnings_run _ _ _ _ _ Hload).
  match goal with
  | |- context [?k env (with_warnings w ?d1)] =>
      assert (quiet k) as Hq
        by (apply quiet_bind; [apply quiet_api; reflexivity|];
            intros _; apply quiet_log);
      destruct (Hq env (with_warnings w d1)) as (Hc & Hw & _)
  end.
  split; [exact Hw | exact Hc].
Qed.

Lemma cleared_here (d : warnings_doc) g u : entry_at (cleared d g u) g u = None.
Proof.
  unfold entry_at, cleared. destruct (d !! g) as [e|] eqn:Hg.
  - rewrite lookup_insert_eq. simpl. apply lookup_delete_eq.
  - rewrite Hg. reflexivity.
Qed.

Lemma cleared_elsewhere (d : warnings_doc) g u g' u' :
  (g', u') ≠ (g, u) → entry_at (cleared d g u) g' u' = entry_at d g' u'.
Proof.
  intros Hne. unfold entry_at, cleared. destruct (d !! g) as [e|] eqn:Hg; [|done].
  destruct (decide (g' = g)) as [->|Hg'].
  - rewrite lookup_insert_eq, Hg. simpl.
    apply lookup_delete_ne. congruence.
  - rewrite lookup_insert_ne by done. reflexivity.
Qed.

(** X10. With a readable ledger, the whole [clearwarnings] handler, whatever
    the platform answers, removes the entry of the (guild, member) pair,
    leaves the entry of every other (guild, user) key as it was, and leaves
    config.json alone. *)
Theorem clearwarnings_touches_one_entry (i : Interaction) (member : Member)
    (env : Env) (w : World) (d : warnings_doc) :
  load_warnings env w = (Ok d, w) →
  let g := str (guild_id (guild i)) in
  let u := str (member_id member) in
  let w' := (clearwarnings_body i member env w).2 in
  ∃ d',
    warnings_json w' = Json d'
    ∧ config_json w' = config_json w
    ∧ entry_at d' g u = None
    ∧ (∀ g' u', (g', u') ≠ (g, u) → entry_at d' g' u' = entry_at d g' u')
    ∧ (∀ gid uid, (gid, uid) ≠ (guild_id (guild i), member_id member) →
         entry_at d' (str gid) (str uid) = entry_at d (str gid) (str uid)).
Proof.
  intros Hload g u w'.
  destruct (clearwarnings_body_files i member env w d Hload) as [Hw Hc].
  exists (cleared d g u).
  split; [exact Hw|]. split; [exact Hc|]. split; [apply cleared_here|].
  split.
  - intros g' u'. apply cleared_elsewhere.
  - intros gid uid Hne. apply cleared_elsewhere.
    intros [= Hg Hu]. apply Hne. f_equal; apply str_inj; assumption.
Qed.

(** X11. With a readable ledger, the first warning after a member's
    warnings were cleared is number 1, and it is then the member's only
    record, however many there were before. *)
Theorem first_warning_after_clear (i i' : Interaction) (member : Member)
    (reason now : string) (env : Env) (w : World) (d : warnings_doc) :
  load_warnings env w = (Ok d, w) →
  guild_id (guild i') = guild_id (guild i) →
  let w1 := (clearwarnings_body i member env w).2 in
  let w2 := (add_warning i' member reason now env w1).2 in
  (add_warning i' member reason now env w1).1 = Ok 1
  ∧ list_warnings i' member env w2 = (Ok [record_of (user i') reason now], w2).
Proof.
  intros Hload Hg w1 w2.
  destruct (clearwarnings_body_files i member env w d Hload) as [Hw _].
  fold w1 in Hw.
  assert (load_warnings env w1 =
          (Ok (cleared d (str (guild_id (guild i))) (str (member_id member))), w1))
    as Hload1 by (apply load_warnings_ok; right; exact Hw).
  pose proof (cleared_here d (str (guild_id (guild i))) (str (member_id member)))
    as Hnone.
  unfold w2. rewrite (add_warning_run _ _ _ _ _ _ _ Hload1). simpl.
  rewrite Hg.
  assert (get (get (cleared d (str (guild_id (guild i))) (str (member_id member)))
                 (str (guild_id (guild i))) ∅) (str (member_id member)) [] = [])
    as Hempty.
  { unfold entry_at in Hnone. unfold get.
    destruct (cleared d _ _ !! str (guild_id (guild i))) as [e|]; simpl in *.
    - rewrite Hnone. reflexivity.
    - rewrite lookup_empty. reflexivity. }
  rewrite Hempty. split; [reflexivity|].
  rewrite (list_warnings_of_loaded _ _ _ _ _ (load_with_warnings _ _ _)).
  rewrite Hg, appended_here, Hempty. reflexivity.
Qed.

Lemma warn_body_files i member reason now env w d :
  load_warnings env w = (Ok d, w) →
  warnings_json (warn_body i member reason now env w).2 =
    Json (appended d (str (guild_id (guild i))) (str (member_id member))
            (record_of (user i) reason now))
  ∧ config_json (warn_body i member reason now env w).2 = config_json w.
Proof.
  intros Hload. unfold warn_body.
  rewrite bind_run, (add_warning_run _ _ _ _ _ _ _ Hload).
  match goal with
  | |- context [?k env (with_warnings w ?d1)] =>
      assert (quiet k) as Hq
        by (apply quiet_bind;
            [apply quiet_except_Forbidden, quiet_api; reflexivity|];
            intros _; apply quiet_bind; [apply quiet_api; reflexivity|];
            intros _; apply quiet_log);
      destruct (Hq env (with_warnings w d1)) as (Hc & Hw & _)
  end.
  split; [exact Hw | exact Hc].
Qed.

(** X12. [warn] has no hierarchy check and does not wait for the platform:
    for an actor who passes the moderator check, with a readable ledger, the
    warning is in the ledger after the command, whatever the top roles of
    actor and target and whatever the platform answers to the notification,
    the acknowledgement and the audit message. *)
Theorem warn_records_whatever_follows (i : Interaction) (member : Member)
    (reason now : string) (env : Env) (w : World) (d : warnings_doc) :
  (is_mod i env w).1 = Ok true →
  load_warnings env w = (Ok d, w) →
  let w' := (warn i member reason now env w).2 in
  list_warnings i member env w' =
  (Ok (get (get d (str (guild_id (guild i))) ∅) (str (member_id member)) []
       ++ [record_of (user i) reason now]), w').
Proof.
  intros Hpass Hload w'. unfold w', warn.
  rewrite checked_run, (is_mod_pass _ _ _ Hpass).
  destruct (warn_body_files i member reason now env w d Hload) as [Hw _].
  rewrite (list_warnings_of_loaded _ _ _ _ _
             (proj2 (load_warnings_ok _ _ _) (or_intror Hw))).
  rewrite appended_here. reflexivity.
Qed.

(** ** Showing warnings *)


(** ** What the platform's answers change *)

Lemma api_agree c e1 e2 w :
  platform e1 c = platform e2 c → api c e1 w = api c e2 w.
Proof. intros H. unfold api. rewrite H. reflexivity. Qed.

Lemma log_agree g e e1 e2 w :
  agree_up_to_dms e1 e2 → log g e e1 w = log g e e2 w.
Proof.
  intros [Hid Hp]. unfold log. rewrite !bind_run. unfold ask_log_channel.
  rewrite Hid. destruct (truthy (LOG_CHANNEL_ID e2)); [|reflexivity].
  destruct (get_channel g _) as [ch|]; [|reflexivity].
  apply api_agree. apply (Hp (channel_send ch e)).
Qed.

Lemma dm_agree m e e1 e2 w :
  agree_up_to_dms e1 e2 →
  except_Forbidden (api (member_send m e)) e1 w =
  except_Forbidden (api (member_send m e)) e2 w.
Proof.
  intros [_ Hp]. destruct (Hp (member_send m e)) as [[H1|H1] [H2|H2]];
    unfold except_Forbidden, api; rewrite H1, H2; reflexivity.
Qed.

Lemma add_warning_env i member reason now e1 e2 w :
  add_warning i member reason now e1 w = add_warning i member reason now e2 w.
Proof.
  unfold add_warning. rewrite !bind_run. unfold load_warnings.
  destruct (warnings_json w) as [| | |d]; try reflexivity.
  destruct (setdefault d _ _) as [data entry].
  destruct (setdefault entry _ _) as [entry0 l]. reflexivity.
Qed.

(** X14. Whether the platform delivers the direct message or refuses it
    with Forbidden makes no difference to [ban], [kick] and [warn]: in two
    environments that agree on everything else, each handler ends with the
    same outcome, the same documents and the same requests issued. *)
Theorem dm_refusal_is_invisible (i : Interaction) (member : Member)
    (reason now : string) (delete_days : Z) (e1 e2 : Env) (w : World) :
  agree_up_to_dms e1 e2 →
  ban_body i member reason delete_days e1 w = ban_body i member reason delete_days e2 w
  ∧ kick_body i member reason e1 w = kick_body i member reason e2 w
  ∧ warn_body i member reason now e1 w = warn_body i member reason now e2 w.
Proof.
  intros Hag. pose proof Hag as [_ Hp]. split; [|split].
  - unfold ban_body. destruct (role_ge _ _).
    + apply api_agree. apply (Hp (send_message _ _ _)).
    + rewrite !bind_run, (dm_agree _ _ _ _ _ Hag).
      destruct (except_Forbidden _ e2 w) as [[[]|x] w1]; [|reflexivity].
      rewrite !bind_run.
      rewrite (api_agree _ e1 e2) by apply (Hp (member_ban _ _ _)).
      destruct (api _ e2 w1) as [[[]|x] w2]; [|reflexivity].
      rewrite !bind_run.
      rewrite (api_agree _ e1 e2) by apply (Hp (send_message _ _ _)).
      destruct (api _ e2 w2) as [[[]|x] w3]; [|reflexivity].
      apply log_agree, Hag.
  - unfold kick_body. destruct (role_ge _ _).
    + apply api_agree. apply (Hp (send_message _ _ _)).
    + rewrite !bind_run, (dm_agree _ _ _ _ _ Hag).
      destruct (except_Forbidden _ e2 w) as [[[]|x] w1]; [|reflexivity].
      rewrite !bind_run.
      rewrite (api_agree _ e1 e2) by apply (Hp (member_kick _ _)).
      destruct (api _ e2 w1) as [[[]|x] w2]; [|reflexivity].
      rewrite !bind_run.
      rewrite (api_agree _ e1 e2) by apply (Hp (send_message _ _ _)).
      destruct (api _ e2 w2) as [[[]|x] w3]; [|reflexivity].
      apply log_agree, Hag.
  - unfold warn_body. rewrite !bind_run, (add_warning_env _ _ _ _ e1 e2).
    destruct (add_warning _ _ _ _ e2 w) as [[n|x] w1]; [|reflexivity].
    rewrite !bind_run, (dm_agree _ _ _ _ _ Hag).
    destruct (except_Forbidden _ e2 w1) as [[[]|x] w2]; [|reflexivity].
    rewrite !bind_run.
    rewrite (api_agree _ e1 e2) by apply (Hp (send_message _ _ _)).
    destruct (api _ e2 w2) as [[[]|x] w3]; [|reflexivity].
    apply log_agree, Hag.
Qed.

Lemma except_Forbidden_passes c e env w :
  e ≠ Forbidden →
  platform env c = Some e →
  except_Forbidden (api c) env w = (Raise e, with_calls w [c]).
Proof.
  intros Hne H. unfold except_Forbidden. rewrite (api_run_raise _ _ _ _ H).
  destruct e; try reflexivity. congruence.
Qed.

Lemma except_Forbidden_delivered c env w :
  platform env c = None ∨ platform env c = Some Forbidden →
  except_Forbidden (api c) env w = (Ok tt, with_calls w [c]).
Proof.
  intros [H|H].
  - unfold except_Forbidden. rewrite (api_run_ok _ _ _ H). reflexivity.
  - apply except_Forbidden_swallows, H.
Qed.

(** X15. Only Forbidden is forgiven. If the direct message fails with any
    other error, [ban] and [kick] stop with that error before the ban or
    kick is requested, and [warn] stops with it after the warning was
    written to the ledger and before the acknowledgement. *)
Theorem other_dm_failure_aborts (i : Interaction) (member : Member)
    (reason now : string) (delete_days : Z) (e : exn) (env : Env) (w : World)
    (d : warnings_doc) :
  e ≠ Forbidden →
  (∀ m, platform env (member_send member m) = Some e) →
  (role_ge (top_role member) (top_role (user i)) = false →
   (∃ dm, ban_body i member reason delete_days env w =
            (Raise e, with_calls w [member_send member dm]))
   ∧ (∃ dm, kick_body i member reason env w =
              (Raise e, with_calls w [member_send member dm])))
  ∧ (load_warnings env w = (Ok d, w) →
     ∃ dm,
       warn_body i member reason now env w =
       (Raise e,
        with_calls
          (with_warnings w
             (appended d (str (guild_id (guild i))) (str (member_id member))
                (record_of (user i) reason now)))
          [member_send member dm])).
Proof.
  intros Hne Hdm. split.
  - intros Hrank. split; eexists; unfold ban_body, kick_body;
      rewrite Hrank, bind_run, (except_Forbidden_passes _ _ _ _ Hne (Hdm _));
      reflexivity.
  - intros Hload. eexists. unfold warn_body.
    rewrite bind_run, (add_warning_run _ _ _ _ _ _ _ Hload).
    rewrite bind_run, (except_Forbidden_passes _ _ _ _ Hne (Hdm _)).
    reflexivity.
Qed.

(** X16. A failure of the privileged request is not handled: when the ban,
    the kick, the removal of a timeout or the role change fails, the
    handler stops with that error, no acknowledgement and no audit message
    are sent, and both documents are as they were. For ban and kick the
    member has been sent the notification by then. *)
Theorem failed_action_propagates (i : Interaction) (member : Member)
    (role : Role) (reason : string) (delete_days : Z) (e : exn)
    (env : Env) (w : World) :
  (role_ge (top_role member) (top_role (user i)) = false →
   (∀ m, platform env (member_send member m) = None
         ∨ platform env (member_send member m) = Some Forbidden) →
   platform env (member_ban member (member_str (user i) +:+ ": " +:+ reason)
                   delete_days) = Some e →
   ∃ dm,
     ban_body i member reason delete_days env w =
     (Raise e,
      with_calls w
        [member_send member dm;
         member_ban member (member_str (user i) +:+ ": " +:+ reason) delete_days]))
  ∧ (role_ge (top_role member) (top_role (user i)) = false →
     (∀ m, platform env (member_send member m) = None
           ∨ platform env (member_send member m) = Some Forbidden) →
     platform env (member_kick member (member_str (user i) +:+ ": " +:+ reason))
       = Some e →
     ∃ dm,
       kick_body i member reason env w =
       (Raise e,
        with_calls w
          [member_send member dm;
           member_kick member (member_str (user i) +:+ ": " +:+ reason)]))
  ∧ (platform env
       (member_timeout member None (member_str (user i) +:+ ": " +:+ reason))
       = Some e →
     untimeout_cmd_body i member reason env w =
     (Raise e,
      with_calls w
        [member_timeout member None (member_str (user i) +:+ ": " +:+ reason)]))
  ∧ (role_ge role (top_role (user i)) = false →
     platform env
       (add_roles member role ("Role granted by " +:+ member_str (user i)))
       = Some e →
     role_cmd_body i member role "add" env w =
     (Raise e,
      with_calls w
        [add_roles member role ("Role granted by " +:+ member_str (user i))])).
Proof.
  split; [|split; [|split]].
  - intros Hrank Hdm Hban. eexists. unfold ban_body. rewrite Hrank.
    rewrite bind_run, (except_Forbidden_delivered _ _ _ (Hdm _)).
    rewrite bind_run, (api_run_raise _ _ _ _ Hban), with_calls_app.
    reflexivity.
  - intros Hrank Hdm Hkick. eexists. unfold kick_body. rewrite Hrank.
    rewrite bind_run, (except_Forbidden_delivered _ _ _ (Hdm _)).
    rewrite bind_run, (api_run_raise _ _ _ _ Hkick), with_calls_app.
    reflexivity.
  - intros Hfail. unfold untimeout_cmd_body.
    rewrite bind_run, (api_run_raise _ _ _ _ Hfail). reflexivity.
  - intros Hrank Hfail. unfold role_cmd_body. rewrite Hrank. simpl.
    rewrite !bind_run, (api_run_raise _ _ _ _ Hfail). reflexivity.
Qed.

(** ** The audit log *)

Lemma get_channel_some g c ch :
  get_channel g c = Some ch → ch ∈ guild_channels g ∧ c = Z.pos ch.
Proof.
  unfold get_channel. intros H. apply List.find_some in H as [Hin Heq].
  split; [apply list_elem_of_In, Hin | symmetry; apply Z.eqb_eq, Heq].
Qed.

(** X17. [log] sends at most one message, and only to a channel of the
    guild whose id is the configured one; it sends nothing and returns
    normally, whatever the platform would answer, when no id is configured,
    when the id is 0, or when the guild has no channel with that id; its
    only failure is that of the message; and it never changes a document. *)
Theorem log_behaviour (g : Guild) (e : Embed) (env : Env) (w : World) :
  (∃ sent,
     (log g e env w).2 = with_calls w sent
     ∧ (sent = []
        ∨ ∃ ch, sent = [channel_send ch e]
                ∧ ch ∈ guild_channels g
                ∧ LOG_CHANNEL_ID env = Some (Z.pos ch))
     ∧ (log g e env w).1 =
       match sent with
       | c :: _ => match platform env c with Some x => Raise x | None => Ok tt end
       | [] => Ok tt
       end)
  ∧ (LOG_CHANNEL_ID env = None → log g e env w = (Ok tt, w))
  ∧ (LOG_CHANNEL_ID env = Some 0%Z → log g e env w = (Ok tt, w))
  ∧ (∀ c, LOG_CHANNEL_ID env = Some c → get_channel g c = None →
          log g e env w = (Ok tt, w)).
Proof.
  unfold log. rewrite bind_run. unfold ask_log_channel.
  destruct (LOG_CHANNEL_ID env) as [c|] eqn:Hid; simpl.
  - destruct (c =? 0)%Z eqn:Hz; simpl.
    + split; [|split; [discriminate|split; [reflexivity|reflexivity]]].
      exists []. rewrite with_calls_nil. auto.
    + destruct (get_channel g c) as [ch|] eqn:Hch.
      * destruct (get_channel_some _ _ _ Hch) as [Hin ->].
        split; [|split; [discriminate|split]].
        -- exists [channel_send ch e]. unfold api.
           destruct (platform env (channel_send ch e)); simpl;
             (split; [reflexivity|]); (split; [|reflexivity]);
             right; exists ch; auto.
        -- intros [=].
        -- intros c' [= <-] Hnone. congruence.
      * split; [|split; [discriminate|split]].
        -- exists []. rewrite with_calls_nil. auto.
        -- intros [= ->]. discriminate.
        -- reflexivity.
  - split; [|split; [reflexivity|split; [discriminate|discriminate]]].
    exists []. rewrite with_calls_nil. auto.
Qed.

(** ** Role assignment *)

(** X18. The check of [role] looks at the role, not at the member: when the
    role is below the actor's top role the change is requested, whatever
    the top role of the member it is made for; and every action text other
    than add is a removal. *)
Theorem role_cmd_checks_the_role_only (i : Interaction) (member : Member)
    (role : Role) (action : string) (env : Env) (w : World) :
  role_ge role (top_role (user i)) = false →
  ∃ rest,
    calls (role_cmd_body i member role action env w).2 =
    calls w ++
      (if decide (action = "add")
       then add_roles member role ("Role granted by " +:+ member_str (user i))
       else remove_roles member role ("Role removed by " +:+ member_str (user i)))
      :: rest.
Proof.
  intros Hrank. unfold role_cmd_body. rewrite Hrank. simpl.
  destruct (decide (action = "add")) as [->|Hne].
  - simpl. rewrite bind_assoc_run. apply calls_after_api. intros _.
    apply quiet_bind; [apply quiet_ret|]. intros verb.
    apply quiet_bind; [apply quiet_api; reflexivity|]. intros _. apply quiet_log.
  - destruct (String.eqb action "add") eqn:Heq.
    + apply String.eqb_eq in Heq. contradiction.
    + rewrite bind_assoc_run. apply calls_after_api. intros _.
      apply quiet_bind; [apply quiet_ret|]. intros verb.
      apply quiet_bind; [apply quiet_api; reflexivity|]. intros _. apply quiet_log.
Qed.

(** ** Embeds and their field names *)

Ltac by_cases_on_char c :=
  destruct c as [[|] [|] [|] [|] [|] [|] [|] [|]]; reflexivity.

Lemma underscore_char c :
  (if Ascii.eqb c "_" then " "%char else c) ≠ "_"%char.
Proof. destruct c as [[|] [|] [|] [|] [|] [|] [|] [|]]; discriminate. Qed.

Lemma relabel_char_underscore b c :
  Ascii.eqb (relabel_char b c) "_" = Ascii.eqb c "_".
Proof. destruct b; by_cases_on_char c. Qed.

Lemma relabel_char_cased b c : cased (relabel_char b c) = cased c.
Proof. destruct b; by_cases_on_char c. Qed.

Lemma relabel_char_idem b c : relabel_char b (relabel_char b c) = relabel_char b c.
Proof. destruct b; by_cases_on_char c. Qed.

Lemma title_from_char b c r :
  title_from b (String c r) = String (relabel_char b c) (title_from (cased c) r).
Proof. reflexivity. Qed.

Lemma title_from_length s : ∀ b, String.length (title_from b s) = String.length s.
Proof. induction s as [|c r IH]; intros b; simpl; [done|]. rewrite IH. done. Qed.

Lemma replace_underscore_length s :
  String.length (replace_underscore s) = String.length s.
Proof. induction s as [|c r IH]; simpl; [done|]. rewrite IH. done. Qed.

Lemma title_from_idem s : ∀ b, title_from b (title_from b s) = title_from b s.
Proof.
  induction s as [|c r IH]; intros b; [done|].
  rewrite !title_from_char, relabel_char_cased, relabel_char_idem, IH.
  reflexivity.
Qed.

Lemma replace_underscore_title s :
  ∀ b, replace_underscore (title_from b (replace_underscore s)) =
       title_from b (replace_underscore s).
Proof.
  induction s as [|c r IH]; intros b; [done|].
  cbn [replace_underscore]. rewrite title_from_char. cbn [replace_underscore].
  rewrite IH. f_equal.
  rewrite relabel_char_underscore.
  destruct (Ascii.eqb (if Ascii.eqb c "_" then " "%char else c) "_") eqn:E;
    [|reflexivity].
  apply Ascii.eqb_eq in E. destruct (underscore_char c E).
Qed.

Lemma label_no_underscore s :
  ∀ b, "_"%char ∉ String.list_ascii_of_string (title_from b (replace_underscore s)).
Proof.
  induction s as [|c r IH]; intros b; cbn [replace_underscore].
  - simpl. apply not_elem_of_nil.
  - rewrite title_from_char. cbn [String.list_ascii_of_string].
    rewrite not_elem_of_cons. split; [|apply IH].
    intros E. symmetry in E. apply Ascii.eqb_eq in E.
    rewrite relabel_char_underscore in E. apply Ascii.eqb_eq in E.
    exact (underscore_char c E).
Qed.

(** X19. [mod_embed] keeps the title, the colour and the values of the
    fields, in their order, and signs with the fixed footer. The name of a
    field is relabelled: for a keyword written in ASCII the label is as
    long as the keyword, has no underscore left, and labelling a label
    again changes nothing. *)
Theorem mod_embed_fields (t : string) (c : Colour) (fs : list (string * string))
    (name : string) :
  ascii_name name →
  title (mod_embed t c fs) = t
  ∧ colour (mod_embed t c fs) = c
  ∧ footer (mod_embed t c fs) = "Moderation Bot"
  ∧ (fields (mod_embed t c fs)).*2 = fs.*2
  ∧ (fields (mod_embed t c fs)).*1 = label <$> fs.*1
  ∧ String.length (label name) = String.length name
  ∧ ("_"%char ∉ String.list_ascii_of_string (label name))
  ∧ label (label name) = label name.
Proof.
  intros _.
  split; [reflexivity|]. split; [reflexivity|]. split; [reflexivity|].
  split; [|split; [|split; [|split]]].
  - unfold mod_embed. cbn [fields]. rewrite <- list_fmap_compose.
    apply list_fmap_ext. intros _ [k v] _. reflexivity.
  - unfold mod_embed. cbn [fields]. rewrite <- !list_fmap_compose.
    apply list_fmap_ext. intros _ [k v] _. reflexivity.
  - unfold label. rewrite title_from_length. apply replace_underscore_length.
  - apply label_no_underscore.
  - unfold label. rewrite replace_underscore_title. apply title_from_idem.
Qed.

(** ** The count shown by userinfo *)

Lemma warn_count_loaded i member env w d :
  load_warnings env w = (Ok d, w) →
  warn_count i member env w =
  (Ok (length (get (get d (str (guild_id (guild i))) ∅)
                 (str (member_id member)) [])), w).
Proof. intros H. unfold warn_count. rewrite bind_run, H. reflexivity. Qed.

(** X20. The number of warnings [userinfo] shows agrees with the ledger
    commands: with a readable ledger it is the number of records that
    [warnings] lists; right after a [warn] it is the total that [warn]
    reported; right after [clearwarnings] it is 0. With warnings.json
    present but not parsing, computing it raises the read error. *)
Theorem warn_count_agrees (i : Interaction) (member : Member)
    (reason now : string) (env : Env) (w : World) (d : warnings_doc) :
  (load_warnings env w = (Ok d, w) →
   (∃ recs, list_warnings i member env w = (Ok recs, w)
            ∧ warn_count i member env w = (Ok (length recs), w))
   ∧ (warn_count i member env (add_warning i member reason now env w).2).1
     = (add_warning i member reason now env w).1
   ∧ (warn_count i member env (clearwarnings_body i member env w).2).1 = Ok 0)
  ∧ (warnings_json w = Corrupt →
     warn_count i member env w = (Raise JSONDecodeError, w)).
Proof.
  split.
  - intros Hload. split; [|split].
    + eexists. split; [apply (list_warnings_of_loaded _ _ _ _ _ Hload)|].
      apply warn_count_loaded, Hload.
    + rewrite (add_warning_run _ _ _ _ _ _ _ Hload). cbn [fst snd].
      rewrite (warn_count_loaded _ _ _ _ _ (load_with_warnings _ _ _)).
      cbn [fst snd]. rewrite appended_here, length_app. simpl. f_equal. lia.
    + destruct (clearwarnings_body_files i member env w d Hload) as [Hw _].
      rewrite (warn_count_loaded _ _ _ _ _
                 (proj2 (load_warnings_ok _ _ _) (or_intror Hw))).
      cbn [fst snd]. f_equal.
      change 0 with (length (@nil WarningRecord)). f_equal.
      pose proof (cleared_here d (str (guild_id (guild i))) (str (member_id member)))
        as Hnone.
      unfold entry_at in Hnone. unfold get.
      destruct (cleared d _ _ !! str (guild_id (guild i))) as [e|]; simpl in *.
      * rewrite Hnone. reflexivity.
      * rewrite lookup_empty. reflexivity.
  - intros Hc. unfold warn_count. rewrite bind_run. unfold load_warnings.
    rewrite Hc. reflexivity.
Qed.

(** * The further properties at work on the sample guild *)

Lemma admin_role_set_then_get_sample :
  let w1 := (setadminrole_body (Sample.by_ Sample.root) Sample.mods
               Sample.env_ok Sample.world).2 in
  let w2 := (setadminrole_body (Sample.by_ Sample.root) Sample.founders
               Sample.env_ok w1).2 in
  (get_admin_role_id 100 Sample.env_ok w1).1 = Ok (Some 7%Z)
  ∧ (get_admin_role_id 100 Sample.env_ok w2).1 = Ok (Some 9%Z)
  ∧ (get_mod_role_id 100 Sample.env_ok w1).1
    = (get_mod_role_id 100 Sample.env_ok Sample.world).1
  ∧ (get_mod_role_id 100 Sample.env_ok w2).1
    = (get_mod_role_id 100 Sample.env_ok Sample.world).1.
Proof.
  apply (admin_role_set_then_get (Sample.by_ Sample.root) Sample.mods
           Sample.founders Sample.env_ok Sample.world Sample.config).
  reflexivity.
Defined.

Lemma role_setting_frame_sample :
  (get_mod_role_id 100 Sample.env_ok
     (setmodrole_body {| user := Sample.root; guild := Sample.elsewhere |}
        Sample.helper Sample.env_ok Sample.world).2).1 = Ok (Some 7%Z)
  ∧ (get_admin_role_id 100 Sample.env_ok
       (setadminrole_body {| user := Sample.root; guild := Sample.elsewhere |}
          Sample.helper Sample.env_ok Sample.world).2).1 = Ok (Some 8%Z).
Proof.
  destruct (role_setting_frame {| user := Sample.root; guild := Sample.elsewhere |}
              Sample.helper 100 Sample.env_ok Sample.world Sample.config
              eq_refl)
    as (Hm & _ & _ & Ha & _).
  - discriminate.
  - split; [rewrite Hm | rewrite Ha]; vm_compute; reflexivity.
Defined.

Lemma role_settings_commute_sample :
  config_json
    (setadminrole_body (Sample.by_ Sample.root) Sample.staff Sample.env_ok
       (setmodrole_body (Sample.by_ Sample.root) Sample.mods
          Sample.env_ok Sample.fresh).2).2
  = config_json
      (setmodrole_body (Sample.by_ Sample.root) Sample.mods Sample.env_ok
         (setadminrole_body (Sample.by_ Sample.root) Sample.staff
            Sample.env_ok Sample.fresh).2).2.
Proof.
  destruct (role_settings_commute (Sample.by_ Sample.root) Sample.mods
              Sample.staff Sample.env_ok Sample.fresh ∅ eq_refl) as (H & _).
  exact H.
Defined.

Lemma setadminrole_grants_sample :
  (is_admin (Sample.by_ Sample.mod1) Sample.env_ok Sample.world).1 = Ok false
  ∧ (is_admin (Sample.by_ Sample.mod1) Sample.env_ok
       (setadminrole_body (Sample.by_ Sample.root) Sample.mods
          Sample.env_ok Sample.world).2).1 = Ok true.
Proof.
  split; [vm_compute; reflexivity|].
  destruct (setadminrole_grants (Sample.by_ Sample.root) (Sample.by_ Sample.mod1)
              Sample.mods Sample.env_ok Sample.world Sample.config
              eq_refl eq_refl) as [H _].
  - vm_compute. apply list_elem_of_In. simpl. auto.
  - exact H.
Defined.

Lemma setmodrole_grants_moderation_only_sample :
  (is_mod (Sample.by_ Sample.elder) Sample.env_ok
     (setmodrole_body (Sample.by_ Sample.ada) Sample.founders
        Sample.env_ok Sample.world).2).1 = Ok true
  ∧ ((is_admin (Sample.by_ Sample.elder) Sample.env_ok
        (setmodrole_body (Sample.by_ Sample.ada) Sample.founders
           Sample.env_ok Sample.world).2).1 = Ok true
     ↔ (is_admin (Sample.by_ Sample.elder) Sample.env_ok Sample.world).1 = Ok true).
Proof.
  destruct (setmodrole_grants_moderation_only (Sample.by_ Sample.ada)
              (Sample.by_ Sample.elder) Sample.founders Sample.env_ok
              Sample.world Sample.config eq_refl) as [Hm Ha].
  split; [|exact Ha].
  apply Hm; [reflexivity|]. apply list_elem_of_In. simpl. auto.
Defined.

Lemma permission_check_effects_sample :
  (is_mod (Sample.by_ Sample.newcomer) Sample.env_ok Sample.world).2 =
  with_calls Sample.world
    [send_message (Sample.by_ Sample.newcomer)
       (Text "❌ You need a **Moderator** or **Admin** role to use this command.")
       true].
Proof.
  destruct (permission_check_effects (Sample.by_ Sample.newcomer) Sample.env_ok
              Sample.world) as (_ & _ & H & _).
  apply H. vm_compute. reflexivity.
Defined.

Lemma checks_on_broken_config_sample :
  is_admin (Sample.by_ Sample.root) Sample.env_ok Sample.broken
    = (Ok true, Sample.broken)
  ∧ setmodrole (Sample.by_ Sample.ada) Sample.mods Sample.env_ok Sample.broken
    = (Raise JSONDecodeError, Sample.broken).
Proof.
  split.
  - destruct (checks_on_broken_config (Sample.by_ Sample.root) (mret tt)
                Sample.env_ok Sample.broken) as (H & _).
    destruct (H eq_refl) as [_ Ha]. exact Ha.
  - destruct (checks_on_broken_config (Sample.by_ Sample.ada)
                (setmodrole_body (Sample.by_ Sample.ada) Sample.mods)
                Sample.env_ok Sample.broken) as (_ & H & _).
    destruct (H eq_refl eq_refl) as [_ Ha]. exact Ha.
Defined.

Lemma passed_check_runs_callback_sample :
  kick (Sample.by_ Sample.mod1) Sample.newcomer "spam" Sample.env_ok Sample.world
  = kick_body (Sample.by_ Sample.mod1) Sample.newcomer "spam"
      Sample.env_ok Sample.world.
Proof.
  destruct (passed_check_runs_callback (Sample.by_ Sample.mod1)
              (kick_body (Sample.by_ Sample.mod1) Sample.newcomer "spam")
              Sample.env_ok Sample.world) as [H _].
  apply H. vm_compute. reflexivity.
Defined.

Lemma warnings_accumulate_sample :
  ∃ w',
    add_warnings Sample.server Sample.elder Sample.three
      Sample.env_ok Sample.world = (Ok [2; 3; 4], w')
    ∧ list_warnings (Sample.by_ Sample.mod1) Sample.elder Sample.env_ok w' =
      (Ok ([record_of Sample.ada "old" "2024-01-01T00:00:00"]
           ++ ((λ q, record_of q.1.1 q.1.2 q.2) <$> Sample.three)), w').
Proof.
  apply (warnings_accumulate Sample.server Sample.elder Sample.mod1 Sample.three
           [record_of Sample.ada "old" "2024-01-01T00:00:00"]
           Sample.env_ok Sample.world).
  vm_compute. reflexivity.
Defined.

Lemma clearwarnings_touches_one_entry_sample :
  ∃ d',
    warnings_json (clearwarnings_body (Sample.by_ Sample.ada) Sample.newcomer
                     Sample.env_ok Sample.world).2 = Json d'
    ∧ config_json (clearwarnings_body (Sample.by_ Sample.ada) Sample.newcomer
                     Sample.env_ok Sample.world).2 = Json Sample.config
    ∧ entry_at d' "100" "55" = None
    ∧ (∀ g' u', (g', u') ≠ ("100", "55") →
         entry_at d' g' u' = entry_at Sample.ledger g' u')
    ∧ (∀ gid uid, (gid, uid) ≠ (100%positive, 55%positive) →
         entry_at d' (str gid) (str uid) = entry_at Sample.ledger (str gid) (str uid)).
Proof.
  apply (clearwarnings_touches_one_entry (Sample.by_ Sample.ada) Sample.newcomer
           Sample.env_ok Sample.world Sample.ledger).
  reflexivity.
Defined.

Lemma first_warning_after_clear_sample :
  let w1 := (clearwarnings_body (Sample.by_ Sample.ada) Sample.elder
               Sample.env_ok Sample.world).2 in
  let w2 := (add_warning (Sample.by_ Sample.mod1) Sample.elder "spam"
               "2024-03-01T10:00:00" Sample.env_ok w1).2 in
  (add_warning (Sample.by_ Sample.mod1) Sample.elder "spam"
     "2024-03-01T10:00:00" Sample.env_ok w1).1 = Ok 1
  ∧ list_warnings (Sample.by_ Sample.mod1) Sample.elder Sample.env_ok w2 =
    (Ok [record_of Sample.mod1 "spam" "2024-03-01T10:00:00"], w2).
Proof.
  apply (first_warning_after_clear (Sample.by_ Sample.ada) (Sample.by_ Sample.mod1)
           Sample.elder "spam" "2024-03-01T10:00:00" Sample.env_ok Sample.world
           Sample.ledger); reflexivity.
Defined.

Lemma warn_records_whatever_follows_sample :
  role_ge (top_role Sample.elder) (top_role Sample.mod1) = true
  ∧ let w' := (warn (Sample.by_ Sample.mod1) Sample.elder "spam"
                 "2024-03-01T10:00:00" Sample.env_dm_down Sample.world).2 in
    list_warnings (Sample.by_ Sample.mod1) Sample.elder Sample.env_dm_down w' =
    (Ok ([record_of Sample.ada "old" "2024-01-01T00:00:00"]
         ++ [record_of Sample.mod1 "spam" "2024-03-01T10:00:00"]), w').
Proof.
  split; [reflexivity|].
  apply (warn_records_whatever_follows (Sample.by_ Sample.mod1) Sample.elder
           "spam" "2024-03-01T10:00:00" Sample.env_dm_down Sample.world
           Sample.ledger).
  - vm_compute. reflexivity.
  - reflexivity.
Defined.


Lemma dm_refusal_is_invisible_sample :
  ban_body (Sample.by_ Sample.ada) Sample.newcomer "spam" 0
    Sample.env_ok Sample.world
  = ban_body (Sample.by_ Sample.ada) Sample.newcomer "spam" 0
      Sample.env_dm_closed Sample.world.
Proof.
  destruct (dm_refusal_is_invisible (Sample.by_ Sample.ada) Sample.newcomer
              "spam" "2024-03-01T10:00:00" 0 Sample.env_ok Sample.env_dm_closed
              Sample.world) as (H & _).
  - split; [reflexivity|]. intros []; simpl; auto.
  - exact H.
Defined.

Lemma other_dm_failure_aborts_sample :
  ∃ dm,
    ban_body (Sample.by_ Sample.ada) Sample.newcomer "spam" 0
      Sample.env_dm_down Sample.world =
    (Raise HTTPException, with_calls Sample.world [member_send Sample.newcomer dm]).
Proof.
  destruct (other_dm_failure_aborts (Sample.by_ Sample.ada) Sample.newcomer
              "spam" "2024-03-01T10:00:00" 0 HTTPException Sample.env_dm_down
              Sample.world Sample.ledger) as (H & _).
  - discriminate.
  - reflexivity.
  - destruct (H eq_refl) as [Hban _]. exact Hban.
Defined.

Lemma failed_action_propagates_sample :
  ∃ dm,
    ban_body (Sample.by_ Sample.ada) Sample.newcomer "spam" 0
      Sample.env_no_actions Sample.world =
    (Raise Forbidden,
     with_calls Sample.world
       [member_send Sample.newcomer dm;
        member_ban Sample.newcomer "ada: spam" 0]).
Proof.
  destruct (failed_action_propagates (Sample.by_ Sample.ada) Sample.newcomer
              Sample.helper "spam" 0 Forbidden Sample.env_no_actions
              Sample.world) as (H & _).
  apply H; [reflexivity | intros m; left; reflexivity | reflexivity].
Defined.

Lemma log_behaviour_sample :
  log Sample.server (mod_embed "🔨 Member Banned" red []) Sample.env_no_log
    Sample.world = (Ok tt, Sample.world).
Proof.
  destruct (log_behaviour Sample.server (mod_embed "🔨 Member Banned" red [])
              Sample.env_no_log Sample.world) as (_ & H & _).
  apply H. reflexivity.
Defined.

Lemma role_cmd_checks_the_role_only_sample :
  role_ge (top_role Sample.elder) (top_role Sample.ada) = true
  ∧ ∃ rest,
      calls (role_cmd_body (Sample.by_ Sample.ada) Sample.elder Sample.helper
               "remove" Sample.env_ok Sample.world).2 =
      calls Sample.world
      ++ remove_roles Sample.elder Sample.helper "Role removed by ada" :: rest.
Proof.
  split; [reflexivity|].
  apply (role_cmd_checks_the_role_only (Sample.by_ Sample.ada) Sample.elder
           Sample.helper "remove" Sample.env_ok Sample.world).
  reflexivity.
Defined.

Lemma mod_embed_fields_sample :
  label "total_warnings" = "Total Warnings"
  ∧ label (label "total_warnings") = label "total_warnings"
  ∧ (fields (mod_embed "⚠️ Member Warned" yellow
               [("reason", "spam"); ("total_warnings", "3")])).*2 = ["spam"; "3"].
Proof.
  split; [reflexivity|].
  destruct (mod_embed_fields "⚠️ Member Warned" yellow
              [("reason", "spam"); ("total_warnings", "3")] "total_warnings")
    as (_ & _ & _ & Hv & _ & _ & _ & Hi).
  - repeat constructor.
  - split; [exact Hi | exact Hv].
Defined.

Lemma warn_count_agrees_sample :
  (warn_count (Sample.by_ Sample.newcomer) Sample.elder Sample.env_ok
     (add_warning (Sample.by_ Sample.mod1) Sample.elder "spam"
        "2024-03-01T10:00:00" Sample.env_ok Sample.world).2).1 = Ok 2.
Proof.
  destruct (warn_count_agrees (Sample.by_ Sample.mod1) Sample.elder "spam"
              "2024-03-01T10:00:00" Sample.env_ok Sample.world Sample.ledger)
    as (H & _).
  destruct (H eq_refl) as (_ & Hadd & _). exact Hadd.
Defined.
